(** * The launcher [runner/bin/run.js] of content-writer-mcp

    A shallow embedding of the Node launcher script: option parsing,
    the host / port / debug precedence chains, construction of the
    child environment, interpreter resolution, the final guard, the
    spawn, and the two event handlers that supervise the child.

    The script is embedded statement by statement.  What belongs to the
    JavaScript engine and to Node (numbers, [JSON.parse], [path.join],
    [path.resolve], the default action of a signal) is taken as an
    interface, [Runtime]; everything the script itself decides is a
    definition below. *)

From Stdlib Require Import String Ascii ZArith List Bool Lia.
From stdpp Require Import base option list strings gmap.

Local Open Scope string_scope.
Local Open Scope Z_scope.

Set Warnings "-register-all".

(** ** JavaScript values *)

(** The values the script manipulates: what [JSON.parse] can return,
    plus [undefined] (a missing property or environment variable).
    Objects keep their members in source order. *)
Inductive value (N : Type) : Type :=
| VUndefined
| VNull
| VBool (b : bool)
| VNum (n : N)
| VStr (s : string)
| VArr (items : list (value N))
| VObj (members : list (string * value N)).

Arguments VUndefined {N}.
Arguments VNull {N}.
Arguments VBool {N} b.
Arguments VNum {N} n.
Arguments VStr {N} s.
Arguments VArr {N} items.
Arguments VObj {N} members.

(** What becomes of a Node process that receives a signal it has no
    listener for: the default action of the signal ends it, or it
    lives on (the signal is ignored, or it stops the process until it
    is continued). *)
Inductive disposition := Ends | Survives.

(** The part of the engine and of Node the script calls into. *)
Class Runtime := {
  number : Type;
  (** the value of an integer literal *)
  number_of_Z : Z -> number;
  NaN : number;
  (** ToBoolean on numbers: false exactly for +0, -0 and NaN *)
  number_truthy : number -> bool;
  (** ToNumber on strings, Number::toString *)
  StringToNumber : string -> number;
  NumberToString : number -> string;
  (** [JSON.parse]: the message of the SyntaxError, or the value *)
  JSON_parse : string -> string + value number;
  (** [path.join], [path.resolve], [path.delimiter] *)
  path_join : list string -> string;
  path_resolve : list string -> string;
  path_delimiter : string;
  (** the default action of a signal nobody listens to *)
  signal_default : string -> disposition;
  (** the numeric literal of the script prints as written, NaN by its
      name, and the empty text is not JSON *)
  NumberToString_7001 : NumberToString (number_of_Z 7001) = "7001";
  NumberToString_NaN : NumberToString NaN = "NaN";
  JSON_parse_empty : exists message, JSON_parse EmptyString = inl message;
}.

Section Values.
Context `{RT : Runtime}.

Definition jsval : Type := value number.

(** A string is truthy when it is not empty. *)
Definition str_truthy (s : string) : bool :=
  match s with EmptyString => false | String _ _ => true end.

(** ToBoolean *)
Definition truthy (v : jsval) : bool :=
  match v with
  | VUndefined | VNull => false
  | VBool b => b
  | VNum n => number_truthy n
  | VStr s => str_truthy s
  | VArr _ | VObj _ => true
  end.

(** [a || b] and [a ?? b] *)
Definition js_or (a b : jsval) : jsval := if truthy a then a else b.

Definition nullish (v : jsval) : bool :=
  match v with VUndefined | VNull => true | _ => false end.

Definition js_coalesce (a b : jsval) : jsval := if nullish a then b else a.

(** Own-property lookup in a parsed object: the last member with the
    key (a later duplicate overwrites an earlier one). *)
Fixpoint member (k : string) (ms : list (string * jsval)) : option jsval :=
  match ms with
  | [] => None
  | (k', v) :: rest =>
      match member k rest with
      | Some v' => Some v'
      | None => if String.eqb k' k then Some v else None
      end
  end.

Definition has_member (k : string) (ms : list (string * jsval)) : bool :=
  match member k ms with Some _ => true | None => false end.

(** [String(v)].  [None] is the TypeError of ToPrimitive: a parsed
    object whose own [toString] member shadows the inherited method
    with something that cannot be called. *)
Fixpoint ToString (v : jsval) : option string :=
  match v with
  | VUndefined => Some "undefined"
  | VNull => Some "null"
  | VBool b => Some (if b then "true" else "false")
  | VNum n => Some (NumberToString n)
  | VStr s => Some s
  | VArr items =>
      (* Array.prototype.join: null and undefined print as nothing *)
      let fix elems (l : list jsval) : option (list string) :=
        match l with
        | [] => Some []
        | e :: r =>
            match (if nullish e then Some EmptyString else ToString e), elems r with
            | Some s, Some ss => Some (s :: ss)
            | _, _ => None
            end
        end in
      match elems items with
      | Some ss => Some (String.concat "," ss)
      | None => None
      end
  | VObj ms => if has_member "toString" ms then None else Some "[object Object]"
  end.

(** [Number(v)], with the same TypeError. *)
Definition ToNumber (v : jsval) : option number :=
  match v with
  | VUndefined => Some NaN
  | VNull => Some (number_of_Z 0)
  | VBool b => Some (number_of_Z (if b then 1 else 0))
  | VNum n => Some n
  | VStr s => Some (StringToNumber s)
  | VArr _ | VObj _ =>
      match ToString v with
      | Some s => Some (StringToNumber s)
      | None => None
      end
  end.

(** [s.toLowerCase()] on ASCII; other bytes are left as they are,
    none of them lower-cases to a letter of [true]. *)
Definition lower_ascii (c : ascii) : ascii :=
  let n := nat_of_ascii c in
  if (Nat.leb 65 n && Nat.leb n 90)%bool then ascii_of_nat (n + 32) else c.

Fixpoint toLowerCase (s : string) : string :=
  match s with
  | EmptyString => EmptyString
  | String c r => String (lower_ascii c) (toLowerCase r)
  end.

(** [s.trim()] for the ASCII white space a shell prints. *)
Definition is_space (c : ascii) : bool :=
  let n := nat_of_ascii c in
  (Nat.eqb n 32 || Nat.leb 9 n && Nat.leb n 13)%bool.

Fixpoint trim_start (s : string) : string :=
  match s with
  | String c r => if is_space c then trim_start r else s
  | EmptyString => EmptyString
  end.

Fixpoint trim_end (s : string) : string :=
  match s with
  | EmptyString => EmptyString
  | String c r =>
      match trim_end r with
      | EmptyString => if is_space c then EmptyString else String c EmptyString
      | r' => String c r'
      end
  end.

Definition trim (s : string) : string := trim_end (trim_start s).

(** [l.filter(Boolean).join(sep)] on strings *)
Definition filter_truthy (l : list string) : list string :=
  List.filter str_truthy l.

End Values.

(** ** The process and its surroundings *)

(** What [fs.statSync] reports of a path (symbolic links followed): the
    file type and whether an execute permission bit is set. *)
Inductive FileType := Regular | Directory | Special.

Record Stats := { st_type : FileType; st_exec : bool }.

Definition Stats_isFile (st : Stats) : bool :=
  match st_type st with Regular => true | _ => false end.

(** What the launcher is started with and what it can observe. *)
Record World := {
  argv : list string;                 (* process.argv *)
  environ : gmap string string;       (* process.env at start *)
  fs : gmap string Stats;             (* the paths that exist *)
  dirname : string;                   (* __dirname *)
  shell_stdout : string -> string;    (* stdout of [bash -lc <script>] *)
}.

(** The process whose exit code and environment the child receives. *)
Record ChildProcess := {
  child_command : string;
  child_args : list string;
  child_env : gmap string string;
  child_cwd : string;
}.

(** What the launcher does that can be seen from outside. *)
Inductive event :=
| ConsoleError (line : string)
| ConsoleLog (line : string)
| SpawnSync (command : string) (args : list string)
| Spawn (c : ChildProcess).

(** How a piece of the script ends: normally, by [process.exit], or by
    an exception nobody catches (Node then prints it and terminates with
    status 1). *)
Inductive completion (A : Type) : Type :=
| Normal (a : A)
| Exited (status : Z)
| Uncaught (error : string).

Arguments Normal {A} a.
Arguments Exited {A} status.
Arguments Uncaught {A} error.

(** The mutable part: [process.env] and what was emitted so far. *)
Record proc := { penv : gmap string string; emitted : list event }.

Definition M (A : Type) : Type := proc -> completion A * proc.

Definition ret {A} (a : A) : M A := fun p => (Normal a, p).

Definition bind {A B} (m : M A) (k : A -> M B) : M B :=
  fun p =>
    match m p with
    | (Normal a, p') => k a p'
    | (Exited c, p') => (Exited c, p')
    | (Uncaught e, p') => (Uncaught e, p')
    end.

#[global] Instance M_ret : MRet M := @ret.
#[global] Instance M_bind : MBind M := fun A B k m => bind m k.

Definition emit (e : event) : M unit :=
  fun p => (Normal tt, {| penv := penv p; emitted := emitted p ++ [e] |}).

Definition console_error (line : string) : M unit := emit (ConsoleError line).
Definition console_log (line : string) : M unit := emit (ConsoleLog line).

Definition process_exit {A} (status : Z) : M A := fun p => (Exited status, p).
Definition throw {A} (error : string) : M A := fun p => (Uncaught error, p).

Definition getenv (k : string) : M (option string) :=
  fun p => (Normal (penv p !! k), p).

Definition setenv (k v : string) : M unit :=
  fun p => (Normal tt, {| penv := <[k := v]> (penv p); emitted := emitted p |}).

(** ** The script *)

Section Script.
Context `{RT : Runtime}.

(** [l.indexOf(x)]: the first position of [x], or -1. *)
Fixpoint indexOf_from (x : string) (l : list string) (i : Z) : Z :=
  match l with
  | [] => -1
  | y :: rest => if String.eqb y x then i else indexOf_from x rest (i + 1)
  end.

Definition indexOf (x : string) (l : list string) : Z := indexOf_from x l 0.

(** [l[i]]: [None] is [undefined]. *)
Definition element (l : list string) (i : Z) : option string :=
  if i <? 0 then None else l !! Z.to_nat i.

(** [o.k] on a parsed value.  Reading a property of [null] or
    [undefined] is a TypeError; a primitive or an array has none of
    the names the script asks for. *)
Definition get (o : jsval) (k : string) : M jsval :=
  match o with
  | VUndefined =>
      throw ("TypeError: Cannot read properties of undefined (reading '" ++ k ++ "')")
  | VNull =>
      throw ("TypeError: Cannot read properties of null (reading '" ++ k ++ "')")
  | VObj ms => mret (default VUndefined (member k ms))
  | _ => mret VUndefined
  end.

(** A string that may be missing: an environment variable, an element
    of the argument list. *)
Definition optional (o : option string) : jsval :=
  match o with Some s => VStr s | None => VUndefined end.

(** [process.env.K || d] *)
Definition env_or (o : option string) (d : string) : string :=
  match js_or (optional o) (VStr d) with VStr s => s | _ => d end.

(** [function parseConfigArg(argv)] *)
Definition parseConfigArg (argv : list string) : M jsval :=
  let i := indexOf "--config" argv in
  if negb (i =? -1) && truthy (optional (element argv (i + 1))) then
    match JSON_parse (default EmptyString (element argv (i + 1))) with
    | inr v => mret v
    | inl message =>
        console_error ("[mcp-service-registry] Invalid --config JSON: " ++ message);;
        process_exit 1
    end
  else mret (VObj []).

Section Probes.
Variable w : World.

Definition existsSync (p : string) : bool :=
  match fs w !! p with Some _ => true | None => false end.

(** [None] is the error [statSync] throws for a missing path. *)
Definition statSync (p : string) : option Stats := fs w !! p.

(** [function isExec(p)], as the truth value of its result; the
    [catch] turns an error of [statSync] into [false]. *)
Definition isExec (p : option string) : bool :=
  match p with
  | None => false
  | Some p =>
      str_truthy p && existsSync p &&
      match statSync p with
      | Some st => Stats_isFile st
      | None => false
      end
  end.

(** [l.find(isExec)] *)
Definition find_isExec (l : list string) : option string :=
  List.find (fun c => isExec (Some c)) l.

(** The closure [which] of [resolvePython]: one shell lookup. *)
Definition which (cmd : string) : M (option string) :=
  let script := "command -v " ++ cmd ++ " || true" in
  emit (SpawnSync "bash" ["-lc"; script]);;
  let p := trim (shell_stdout w script) in
  mret (if isExec (Some p) then Some p else None).

(** [function resolvePython()]: defined by the script, called
    nowhere. *)
Definition resolvePython : M (option string) :=
  (* 1) Explicit override *)
  override ← getenv "PYTHON_BIN";
  if isExec override then mret override else
  (* 2) Virtualenv *)
  venv ← getenv "VIRTUAL_ENV";
  let in_venv :=
    if truthy (optional venv) then
      let pyVenv := path_join [default EmptyString venv; "bin"; "python"] in
      if isExec (Some pyVenv) then Some pyVenv else
      let pyVenv3 := path_join [default EmptyString venv; "bin"; "python3"] in
      if isExec (Some pyVenv3) then Some pyVenv3 else None
    else None in
  match in_venv with
  | Some p => mret (Some p)
  | None =>
      (* 3) Common macOS locations *)
      let candidates :=
        ["/opt/homebrew/bin/python3"; "/usr/local/bin/python3"; "/usr/bin/python3"] in
      match find_isExec candidates with
      | Some c => mret (Some c)
      | None =>
          (* 4) Fallback to PATH lookups: the closure is built, not called *)
          let which := which in
          mret None
      end
  end.
End Probes.

Definition TypeError {A} : M A :=
  throw "TypeError: Cannot convert object to primitive value".

(** [const host = cfg.host || process.env.SERVICE_REGISTRY_HOST || "127.0.0.1"] *)
Definition host (cfg : jsval) : M jsval :=
  cfg_host ← get cfg "host";
  env_host ← getenv "SERVICE_REGISTRY_HOST";
  mret (js_or (js_or cfg_host (optional env_host)) (VStr "127.0.0.1")).

(** [const port = Number(cfg.port || process.env.SERVICE_REGISTRY_PORT || 7001)] *)
Definition port (cfg : jsval) : M number :=
  cfg_port ← get cfg "port";
  env_port ← getenv "SERVICE_REGISTRY_PORT";
  match ToNumber (js_or (js_or cfg_port (optional env_port)) (VNum (number_of_Z 7001))) with
  | Some n => mret n
  | None => TypeError
  end.

(** [const debug = Boolean(cfg.debug ??
      (process.env.SERVICE_REGISTRY_DEBUG || "").toLowerCase() === "true")] *)
Definition debug (cfg : jsval) : M bool :=
  cfg_debug ← get cfg "debug";
  env_debug ← getenv "SERVICE_REGISTRY_DEBUG";
  mret (truthy (js_coalesce cfg_debug
          (VBool (String.eqb (toLowerCase (env_or env_debug EmptyString)) "true")))).

(** [if (cfg.k) process.env.K = cfg.k]: the assignment stores the
    value as a string. *)
Definition passthrough (cfg : jsval) (k K : string) : M unit :=
  v ← get cfg k;
  if truthy v then
    match ToString v with
    | Some s => setenv K s
    | None => TypeError
    end
  else mret tt.

(** [const repoRoot = path.resolve(__dirname, "..", "..")] *)
Definition repoRoot (w : World) : string := path_resolve [dirname w; ".."; ".."].

(** [const env = { ...process.env, SERVICE_REGISTRY_HOST: String(host), ... }] *)
Definition env (w : World) (host : jsval) (port : number) (debug : bool)
  : M (gmap string string) :=
  process_env ← (fun p => (Normal (penv p), p));
  match ToString host with
  | None => TypeError
  | Some host_string =>
      env_pythonpath ← getenv "PYTHONPATH";
      mret
        (<["PYTHONPATH" :=
             String.concat path_delimiter
               (filter_truthy [repoRoot w; env_or env_pythonpath EmptyString])]>
        (<["SERVICE_REGISTRY_DEBUG" := if debug then "true" else "false"]>
        (<["SERVICE_REGISTRY_PORT" := NumberToString port]>
        (<["SERVICE_REGISTRY_HOST" := host_string]> process_env))))
  end.

(** [const tries = [venv ? path.join(venv, "bin", "python") : null, ...]
      .filter(Boolean)] *)
Definition tries (venv : option string) : list string :=
  filter_truthy
    (omap id
       [ (if truthy (optional venv)
          then Some (path_join [default EmptyString venv; "bin"; "python"])
          else None);
         (if truthy (optional venv)
          then Some (path_join [default EmptyString venv; "bin"; "python3"])
          else None);
         Some "/opt/homebrew/bin/python3";
         Some "/usr/local/bin/python3";
         Some "/usr/bin/python3" ]).

(** [let PY_BIN = process.env.PYTHON_BIN || null; if (!PY_BIN) { ... }]:
    the resolution the script runs. *)
Definition PY_BIN (w : World) : M (option string) :=
  env_python_bin ← getenv "PYTHON_BIN";
  let PY_BIN := if truthy (optional env_python_bin) then env_python_bin else None in
  (* venv or common paths *)
  if negb (truthy (optional PY_BIN)) then
    venv ← getenv "VIRTUAL_ENV";
    mret (find_isExec w (tries venv))
  else mret PY_BIN.

(** The top level of the script, up to and including [spawn]. *)
Definition main (w : World) : M ChildProcess :=
  cfg ← parseConfigArg (argv w);
  (* Defaults + overrides *)
  host ← host cfg;
  port ← port cfg;
  debug ← debug cfg;
  (* Optional Perplexity passthrough *)
  passthrough cfg "perplexityApiKey" "PERPLEXITY_API_KEY";;
  passthrough cfg "perplexityModel" "PERPLEXITY_MODEL";;
  (* Env for Python app *)
  env ← env w host port debug;
  (* Resolve Python synchronously *)
  PY_BIN ← PY_BIN w;
  (* Final guard *)
  match PY_BIN with
  | None =>
      console_error "ERROR: Python interpreter not found.";;
      console_error "Quick fixes:";;
      console_error "  1) Install Homebrew Python:   brew install python";;
      console_error
        "  2) Or set an explicit path:   export PYTHON_BIN=/opt/homebrew/bin/python3";;
      process_exit 127
  | Some PY_BIN =>
      console_log ("[mcp-service-registry] Using Python: " ++ PY_BIN);;
      console_log ("[mcp-service-registry] Starting ServiceRegistry at http://"
                     ++ default EmptyString (ToString host) ++ ":"
                     ++ NumberToString port ++ "/mcp");;
      let child :=
        {| child_command := PY_BIN;
           child_args := ["-m"; "registry.service_registry_server"];
           child_env := env;
           child_cwd := repoRoot w |} in
      emit (Spawn child);;
      mret child
  end.

(** The launcher run from a fresh process. *)
Definition start (w : World) : proc := {| penv := environ w; emitted := [] |}.

Definition launch (w : World) : completion ChildProcess * list event :=
  let r := main w (start w) in (r.1, emitted r.2).

End Script.

(** ** Supervising the child *)

(** What reaches the launcher once the child runs: a signal, by name;
    the [exit] event of the child, with its status code or [null] and
    the signal that ended it or [null]; the [error] event of a child
    that could not be started. *)
Inductive os_event :=
| Signal (name : string)
| ChildExit (code : option Z) (by_signal : option string)
| ChildError (message : string).

(** What a listener of the script does. *)
Inductive action :=
| ChildKill (name : string)          (* child.kill(sig), errors swallowed *)
| ProcessExit (status : Z)           (* process.exit(status) *)
| Emit (e : event).                  (* console output *)

(** [["SIGINT", "SIGTERM"].forEach(sig => process.on(sig, ...))] *)
Definition signal_listener (sig : string) : list action := [ChildKill sig].

Definition signal_listeners : list (string * list action) :=
  List.map (fun sig => (sig, signal_listener sig)) ["SIGINT"; "SIGTERM"].

(** [child.on("exit", code => process.exit(code ?? 0))] *)
Definition exit_listener (code : option Z) : list action :=
  [ProcessExit (match code with Some c => c | None => 0 end)].

Fixpoint listener_for (name : string) (ls : list (string * list action))
  : option (list action) :=
  match ls with
  | [] => None
  | (n, acts) :: rest => if String.eqb n name then Some acts else listener_for name rest
  end.

(** The launcher after [spawn]: waiting, ended by its own
    [process.exit], ended by an error no listener takes, or ended by
    the default action of a signal the script installs no listener
    for. *)
Inductive launcher :=
| Supervising
| Ended (status : Z)
| Crashed (message : string)
| Defaulted (name : string).

(** The first [process.exit] among the actions of a listener ends the
    launcher; what comes after it does not run. *)
Fixpoint perform (acts : list action) : launcher * list action :=
  match acts with
  | [] => (Supervising, [])
  | ProcessExit status :: _ => (Ended status, [ProcessExit status])
  | a :: rest => let r := perform rest in (r.1, a :: r.2)
  end.

(** A signal with a listener runs the listener in place of the default
    action; any other signal has its default action. *)
Definition react `{RT : Runtime} (e : os_event) : launcher * list action :=
  match e with
  | Signal name =>
      match listener_for name signal_listeners with
      | Some acts => perform acts
      | None =>
          match signal_default name with
          | Ends => (Defaulted name, [])
          | Survives => (Supervising, [])
          end
      end
  | ChildExit code _ => perform (exit_listener code)
  | ChildError message => (Crashed message, [])
  end.

(** The event loop: events are taken in order for as long as the
    launcher is alive; the actions performed are collected. *)
Fixpoint supervise `{RT : Runtime} (st : launcher) (evs : list os_event)
  : launcher * list action :=
  match st, evs with
  | Supervising, e :: rest =>
      let r := react e in
      let r' := supervise r.1 rest in
      (r'.1, (r.2 ++ r'.2)%list)
  | _, _ => (st, [])
  end.

(** The whole launcher: the script, then the event loop for as long as
    a child was spawned.  The result is how the launcher stands, what it
    emitted, and what its listeners did. *)
Definition program `{RT : Runtime} (w : World) (evs : list os_event)
  : launcher * list event * list action :=
  match launch w with
  | (Normal _, out) => let r := supervise Supervising evs in (r.1, out, r.2)
  | (Exited status, out) => (Ended status, out, [])
  | (Uncaught error, out) => (Crashed error, out, [])
  end.

(** The two signals the script installs a listener for. *)
Definition relayed (name : string) : Prop := name = "SIGINT" \/ name = "SIGTERM".

(** No shell lookup among the events. *)
Definition no_lookup (evs : list event) : Prop :=
  Forall (fun e => match e with SpawnSync _ _ => False | _ => True end) evs.

(** A piece of the script that adds no shell lookup to the events. *)
Definition shell_free {A} (m : M A) : Prop :=
  forall p, no_lookup (emitted p) -> no_lookup (emitted (m p).2).

(** ** A runtime to compute with

    The interface instantiated for the examples below: numbers are the
    integers and NaN, [Number] reads a run of decimal digits (the empty
    string is 0), [path.join] and [path.resolve] are given for paths
    already in normal form, [JSON.parse] is tabulated at the texts the
    examples pass (any other text is answered with a SyntaxError), and
    the signals without effect on the process are listed.
    At the inputs of the examples the functions return what Node
    returns; the theorems do not depend on this instance. *)
Module Sample.

Definition quote : string := String (ascii_of_nat 34) EmptyString.

(** The texts of the objects with port 0, with an empty host, with a
    null debug, and with port 9999 and debug true. *)
Definition json_port_0 : string := "{" ++ quote ++ "port" ++ quote ++ ":0}".
Definition json_host_empty : string :=
  "{" ++ quote ++ "host" ++ quote ++ ":" ++ quote ++ quote ++ "}".
Definition json_debug_null : string :=
  "{" ++ quote ++ "debug" ++ quote ++ ":null}".
Definition json_port_debug : string :=
  "{" ++ quote ++ "port" ++ quote ++ ":9999," ++ quote ++ "debug" ++ quote ++ ":true}".

Definition is_digit (c : ascii) : bool :=
  let n := nat_of_ascii c in (Nat.leb 48 n && Nat.leb n 57)%bool.

Fixpoint digits (s : string) (acc : Z) : option Z :=
  match s with
  | EmptyString => Some acc
  | String c r =>
      if is_digit c then digits r (10 * acc + Z.of_nat (nat_of_ascii c - 48)) else None
  end.

Fixpoint decimal (fuel : nat) (n : Z) (acc : string) : string :=
  match fuel with
  | O => acc
  | S fuel' =>
      let acc' := String (ascii_of_nat (48 + Z.to_nat (n mod 10))) acc in
      if n <? 10 then acc' else decimal fuel' (n / 10) acc'
  end.

Definition show (n : option Z) : string :=
  match n with
  | None => "NaN"
  | Some z =>
      if z <? 0 then "-" ++ decimal (S (Z.to_nat (Z.log2 (- z)))) (- z) EmptyString
      else decimal (S (Z.to_nat (Z.log2 z))) z EmptyString
  end.

Definition parse (s : string) : string + value (option Z) :=
  if String.eqb s "{}" then inr (VObj [])
  else if String.eqb s "null" then inr VNull
  else if String.eqb s json_port_0 then inr (VObj [("port", VNum (Some 0))])
  else if String.eqb s json_host_empty then inr (VObj [("host", VStr EmptyString)])
  else if String.eqb s json_debug_null then inr (VObj [("debug", VNull)])
  else if String.eqb s json_port_debug
    then inr (VObj [("port", VNum (Some 9999)); ("debug", VBool true)])
  else if (String.eqb s EmptyString || String.eqb s "[")%bool
    then inl "Unexpected end of JSON input"
  else inl "Unexpected token".

(** [path.resolve(d, "..", "..")] for an absolute [d] in normal form:
    the last two components are dropped. *)
Fixpoint dirname_rev (s : list ascii) : list ascii :=
  match s with
  | [] => []
  | c :: r => if Ascii.eqb c "/" then r else dirname_rev r
  end.

Definition parent (d : string) : string :=
  string_of_list_ascii (rev (dirname_rev (rev (list_ascii_of_string d)))).

Definition resolve (parts : list string) : string :=
  match parts with
  | [d; _; _] => parent (parent d)
  | _ => String.concat "/" parts
  end.

(** The signals that do not end a Node process on their own: those
    ignored by default, those that stop or continue it, the broken
    pipe Node ignores and the signal it keeps for its inspector. *)
Definition harmless : list string :=
  ["SIGCHLD"; "SIGURG"; "SIGWINCH"; "SIGCONT"; "SIGSTOP"; "SIGTSTP"; "SIGTTIN"; "SIGTTOU";
   "SIGPIPE"; "SIGUSR1"].

Definition default_action (name : string) : disposition :=
  if existsb (String.eqb name) harmless then Survives else Ends.

#[local] Instance node : Runtime := {|
  number := option Z;
  number_of_Z := Some;
  NaN := None;
  number_truthy := fun n => match n with Some z => negb (z =? 0) | None => false end;
  StringToNumber := fun s => digits s 0;
  NumberToString := show;
  JSON_parse := parse;
  path_join := String.concat "/";
  path_resolve := resolve;
  path_delimiter := ":";
  signal_default := default_action;
  NumberToString_7001 := eq_refl;
  NumberToString_NaN := eq_refl;
  JSON_parse_empty := ex_intro _ _ eq_refl;
|}.

Definition regular_file (x : bool) : Stats := {| st_type := Regular; st_exec := x |}.

Definition world (args : list string) (vars : gmap string string)
    (files : gmap string Stats) : World :=
  {| argv := "/usr/local/bin/node" :: "/repo/runner/bin/run.js" :: args;
     environ := vars;
     fs := files;
     dirname := "/repo/runner/bin";
     shell_stdout := fun _ => EmptyString |}.

(** Only the system interpreter is installed. *)
Definition system_python : gmap string Stats :=
  {[ "/usr/bin/python3" := regular_file true ]}.

(** The override names a path that does not exist. *)
Definition override_missing : World :=
  world [] {[ "PYTHON_BIN" := "/missing/python" ]} system_python.

Definition override_missing_nothing_installed : World :=
  world [] {[ "PYTHON_BIN" := "/missing/python" ]} ∅.

(** The system interpreter is there and may not be executed. *)
Definition not_executable : World :=
  world [] ∅ {[ "/usr/bin/python3" := regular_file false ]}.




(** The port variable is not a number. *)
Definition port_variable_abc : World :=
  world [] {[ "SERVICE_REGISTRY_PORT" := "abc" ]} system_python.

(** The flag followed by the empty string. *)
Definition config_empty_text : World :=
  world ["--config"; EmptyString] ∅ system_python.

(** A flag followed by a text that is not JSON, then the flag again
    as the last argument. *)
Definition flag_last_after_malformed : World :=
  world ["--config"; "["; "--config"] ∅ system_python.

(** [--config {"port":9999,"debug":true}] with an override and a
    virtual environment. *)
Definition config_port_debug : World :=
  world ["--config"; json_port_debug]
    {[ "PYTHON_BIN" := "/stub/python"; "VIRTUAL_ENV" := "/venv" ]}
    {[ "/stub/python" := regular_file true ]}.

(** The same, with another answer of the shell and another PATH. *)
Definition config_port_debug_other_shell : World :=
  {| argv := argv config_port_debug;
     environ := <["PATH" := "/opt/bin"]> (environ config_port_debug);
     fs := fs config_port_debug;
     dirname := dirname config_port_debug;
     shell_stdout := fun _ => "/opt/bin/python3" |}.

End Sample.

(** The interpreter a launch in world [w] settles on. *)
Definition selected `{RT : Runtime} (w : World) : option string :=
  match (PY_BIN w (start w)).1 with
  | Normal b => b
  | _ => None
  end.

(** * What the description of the launcher says

    The statements below follow the wording of the description; the
    properties section compares them with the script. *)

(** The same world with another argument list. *)
Definition with_argv (args : list string) (w : World) : World :=
  {| argv := args; environ := environ w; fs := fs w;
     dirname := dirname w; shell_stdout := shell_stdout w |}.

(** The first [--config] of the argument list is followed by [text]. *)
Definition flag_followed_by (w : World) (text : string) : Prop :=
  exists pre post : list string,
    argv w = (pre ++ "--config" :: text :: post)%list /\ "--config" ∉ pre.

(** The statement that any text after the flag which is not JSON ends
    the launcher with status 1, a diagnostic and no child. *)
Definition invalid_config_is_fatal `{RT : Runtime} (w : World) (text : string) : Prop :=
  flag_followed_by w text ->
  (exists message, JSON_parse text = inl message) ->
  (launch w).1 = Exited 1
  /\ (exists line, ConsoleError line ∈ (launch w).2)
  /\ (forall c, Spawn c ∉ (launch w).2).

(** The statement that a flag which is the last argument, or is
    followed by the empty string, is no error: option parsing returns
    the empty configuration and leaves the process as it was. *)
Definition flag_without_value_is_ignored `{RT : Runtime} (w : World) : Prop :=
  (exists pre, argv w = (pre ++ ["--config"])%list)
  \/ (exists pre post, argv w = (pre ++ "--config" :: EmptyString :: post)%list) ->
  parseConfigArg (argv w) (start w) = (Normal (VObj []), start w).

Ltac run_script :=
  unfold TypeError, mbind, M_bind, mret, M_ret, bind, ret, process_exit,
    console_error, console_log, emit, throw, getenv, setenv; simpl.

(** ** Interpreter resolution *)

(** A path that exists and is an executable regular file. *)
Definition valid_binary (w : World) (p : string) : bool :=
  match fs w !! p with
  | Some st => Stats_isFile st && st_exec st
  | None => false
  end.

(** A variable counts when it is set to a non-empty string. *)
Definition set_nonempty (e : option string) : option string :=
  match e with
  | Some s => if str_truthy s then Some s else None
  | None => None
  end.

Section Resolution.
Context `{RT : Runtime}.

(** The paths the search lists besides the override: the two binaries
    of the virtual environment when one is set, the three fixed
    paths. *)
Definition listed_candidates (venv : option string) : list string :=
  (flat_map (fun v => [path_join [v; "bin"; "python"]; path_join [v; "bin"; "python3"]])
     (option_list (set_nonempty venv)) ++
   ["/opt/homebrew/bin/python3"; "/usr/local/bin/python3"; "/usr/bin/python3"])%list.

(** The candidates in their order, the override variable first. *)
Definition candidates (w : World) : list string :=
  (option_list (set_nonempty (environ w !! "PYTHON_BIN")) ++
   listed_candidates (environ w !! "VIRTUAL_ENV"))%list.

(** The ordered, short-circuiting search: the first candidate that is
    a valid binary. *)
Definition resolution_as_stated (w : World) : option string :=
  List.find (valid_binary w) (candidates w).

(** The statement that the resolution the script runs is that search,
    and that no shell lookup is performed. *)
Definition resolution_is_listed_search (w : World) : Prop :=
  selected w = resolution_as_stated w /\ no_lookup (launch w).2.

(** The statement that a launch which spawns has verified the path it
    runs. *)
Definition selection_is_verified (w : World) : Prop :=
  forall c evs, launch w = (Normal c, evs) -> valid_binary w (child_command c) = true.

(** The statement that without a valid candidate the launcher ends
    with status 127, remediation text and no child. *)
Definition unresolvable_is_fatal (w : World) : Prop :=
  (forall p, p ∈ candidates w -> valid_binary w p = false) ->
  (launch w).1 = Exited 127
  /\ (exists line, ConsoleError line ∈ (launch w).2)
  /\ (forall c, Spawn c ∉ (launch w).2).

(** Two worlds that agree on what the listed candidates are and on
    the files behind them; they may differ in everything else, the
    search path and the answers of the shell included. *)
Definition same_candidates (w w' : World) : Prop :=
  environ w !! "PYTHON_BIN" = environ w' !! "PYTHON_BIN"
  /\ environ w !! "VIRTUAL_ENV" = environ w' !! "VIRTUAL_ENV"
  /\ forall p, p ∈ listed_candidates (environ w !! "VIRTUAL_ENV") ->
               fs w !! p = fs w' !! p.

End Resolution.

(** ** Precedence of configuration, environment and defaults *)

(** The value of a setting: the one from the configuration when there
    is one, otherwise the one from the environment when there is one,
    otherwise the default. *)
Definition by_precedence {A} (from_config from_env : option A) (dflt : A) : A :=
  match from_config, from_env with
  | Some c, _ => c
  | None, Some e => e
  | None, None => dflt
  end.

Definition bool_string (b : bool) : string := if b then "true" else "false".

Section Precedence.
Context `{RT : Runtime}.

(** How the debug variable is read: it means true exactly when it is
    the word [true], in any letter case. *)
Definition debug_variable (e : string) : jsval :=
  VBool (String.eqb (toLowerCase e) "true").

(** As stated: a field counts when it is present, a variable when it
    is set. *)
Definition stated_host (ms : list (string * jsval)) (vars : gmap string string) : jsval :=
  by_precedence (member "host" ms) (VStr <$> vars !! "SERVICE_REGISTRY_HOST")
    (VStr "127.0.0.1").

Definition stated_port (ms : list (string * jsval)) (vars : gmap string string) : jsval :=
  by_precedence (member "port" ms) (VStr <$> vars !! "SERVICE_REGISTRY_PORT")
    (VNum (number_of_Z 7001)).

Definition stated_debug (ms : list (string * jsval)) (vars : gmap string string) : jsval :=
  by_precedence (member "debug" ms) (debug_variable <$> vars !! "SERVICE_REGISTRY_DEBUG")
    (VBool false).

(** The child environment holds the three settings, serialised. *)
Definition child_settings (c : ChildProcess) (h p d : jsval) : Prop :=
  child_env c !! "SERVICE_REGISTRY_HOST" = ToString h
  /\ child_env c !! "SERVICE_REGISTRY_PORT" = NumberToString <$> ToNumber p
  /\ child_env c !! "SERVICE_REGISTRY_DEBUG" = Some (bool_string (truthy d)).


(** As the script has it: a field of the configuration counts when
    its value is truthy (for debug: when it is neither absent nor
    null), a variable when it is set and not empty. *)
Definition present_truthy (v : option jsval) : option jsval :=
  match v with
  | Some x => if truthy x then Some x else None
  | None => None
  end.

Definition present_not_null (v : option jsval) : option jsval :=
  match v with
  | Some x => if nullish x then None else Some x
  | None => None
  end.

Definition chosen_host (ms : list (string * jsval)) (vars : gmap string string) : jsval :=
  by_precedence (present_truthy (member "host" ms))
    (VStr <$> set_nonempty (vars !! "SERVICE_REGISTRY_HOST")) (VStr "127.0.0.1").

Definition chosen_port (ms : list (string * jsval)) (vars : gmap string string) : jsval :=
  by_precedence (present_truthy (member "port" ms))
    (VStr <$> set_nonempty (vars !! "SERVICE_REGISTRY_PORT")) (VNum (number_of_Z 7001)).

Definition chosen_debug (ms : list (string * jsval)) (vars : gmap string string) : jsval :=
  by_precedence (present_not_null (member "debug" ms))
    (debug_variable <$> vars !! "SERVICE_REGISTRY_DEBUG") (VBool false).

(** The statement that a port which is not a number ends the
    launcher with a diagnostic, a non-zero status and no child. *)
Definition non_numeric_port_is_fatal (w : World) (ms : list (string * jsval)) : Prop :=
  parseConfigArg (argv w) (start w) = (Normal (VObj ms), start w) ->
  ToNumber (chosen_port ms (environ w)) = Some NaN ->
  (exists status, (launch w).1 = Exited status /\ status <> 0)
  /\ (exists line, ConsoleError line ∈ (launch w).2)
  /\ (forall c, Spawn c ∉ (launch w).2).

(** A passthrough field is harmless when its value, if it counts,
    can be turned into a string. *)
Definition convertible (v : option jsval) : Prop :=
  forall x, present_truthy v = Some x -> is_Some (ToString x).

End Precedence.

(** * The rest of the script and its caller *)

(** ** Configurations of any shape *)

(** The own members the script can read of a parsed configuration:
    those of an object; a primitive or an array has none of the names
    it asks for. *)
Definition members_of `{RT : Runtime} (cfg : jsval) : list (string * jsval) :=
  match cfg with
  | VObj ms => ms
  | _ => []
  end.

(** Whether a parsed configuration is an object. *)
Definition is_object `{RT : Runtime} (cfg : jsval) : bool :=
  match cfg with
  | VObj _ => true
  | _ => false
  end.

(** Whether the script installs a listener for the signal. *)
Definition is_relayed (name : string) : bool :=
  (String.eqb name "SIGINT" || String.eqb name "SIGTERM")%bool.

(** Where the event loop stops: at the first event that ends the
    launcher, if there is one. *)
Definition stop_at (rest : list os_event) : launcher * list action :=
  match rest with
  | [] => (Supervising, [])
  | Signal name :: _ => (Defaulted name, [])
  | ChildExit code _ :: _ =>
      (Ended (default 0 code), [ProcessExit (default 0 code)])
  | ChildError message :: _ => (Crashed message, [])
  end.

(** The launcher's own environment is as it was at start, apart from
    the two passthrough variables. *)
Definition untouched (w : World) (q : proc) : Prop :=
  forall key, key <> "PERPLEXITY_API_KEY" -> key <> "PERPLEXITY_MODEL" ->
              penv q !! key = environ w !! key.

(** The variables the script sets for the child. *)
Definition child_variables : list string :=
  ["SERVICE_REGISTRY_HOST"; "SERVICE_REGISTRY_PORT"; "SERVICE_REGISTRY_DEBUG";
   "PYTHONPATH"; "PERPLEXITY_API_KEY"; "PERPLEXITY_MODEL"].

(** The four lines of the final guard. *)
Definition remediation : list event :=
  [ConsoleError "ERROR: Python interpreter not found.";
   ConsoleError "Quick fixes:";
   ConsoleError "  1) Install Homebrew Python:   brew install python";
   ConsoleError
     "  2) Or set an explicit path:   export PYTHON_BIN=/opt/homebrew/bin/python3"].

(** ** The deployment wrapper

    The shell script that starts the launcher: it exports the
    interpreter override, enters the repository root, checks the Node
    binary and hands over to it with its own arguments. *)
Module Wrapper.









End Wrapper.

(** ** More texts to compute with

    The sample runtime with a larger table for [JSON.parse]: a number,
    an array, a debug field that is a string, the two passthrough
    fields, and a port that is an object with a member [toString]. *)
Module Texts.

Definition json_debug_string : string :=
  "{" ++ Sample.quote ++ "debug" ++ Sample.quote ++ ":"
      ++ Sample.quote ++ "false" ++ Sample.quote ++ "}".

Definition json_passthrough : string :=
  "{" ++ Sample.quote ++ "perplexityApiKey" ++ Sample.quote ++ ":"
      ++ Sample.quote ++ "k-1" ++ Sample.quote ++ "}".

Definition json_port_object : string :=
  "{" ++ Sample.quote ++ "port" ++ Sample.quote ++ ":{"
      ++ Sample.quote ++ "toString" ++ Sample.quote ++ ":1}}".

Definition parse (s : string) : string + value (option Z) :=
  if String.eqb s "5" then inr (VNum (Some 5))
  else if String.eqb s "[]" then inr (VArr [])
  else if String.eqb s json_debug_string then inr (VObj [("debug", VStr "false")])
  else if String.eqb s json_passthrough then inr (VObj [("perplexityApiKey", VStr "k-1")])
  else if String.eqb s json_port_object
    then inr (VObj [("port", VObj [("toString", VNum (Some 1))])])
  else Sample.parse s.

#[local] Instance node : Runtime := {|
  number := option Z;
  number_of_Z := Some;
  NaN := None;
  number_truthy := fun n => match n with Some z => negb (z =? 0) | None => false end;
  StringToNumber := fun s => Sample.digits s 0;
  NumberToString := Sample.show;
  JSON_parse := parse;
  path_join := String.concat "/";
  path_resolve := Sample.resolve;
  path_delimiter := ":";
  signal_default := Sample.default_action;
  NumberToString_7001 := eq_refl;
  NumberToString_NaN := eq_refl;
  JSON_parse_empty := ex_intro _ _ eq_refl;
|}.

(** A number as configuration. *)
Definition config_number : World := Sample.world ["--config"; "5"] ∅ Sample.system_python.


(** A second flag, with a text that is not JSON, after the first. *)
Definition config_twice : World :=
  Sample.world ["--config"; "{}"; "--config"; "["] ∅ Sample.system_python.

(** A debug field that is the string [false]. *)
Definition config_debug_string : World :=
  Sample.world ["--config"; json_debug_string] ∅ Sample.system_python.

(** A key in the configuration, another key and a model inherited. *)
Definition config_passthrough : World :=
  Sample.world ["--config"; json_passthrough]
    {[ "PERPLEXITY_API_KEY" := "k-0"; "PERPLEXITY_MODEL" := "m-0" ]}
    Sample.system_python.

(** A port that cannot be converted to a primitive value. *)
Definition config_port_object : World :=
  Sample.world ["--config"; json_port_object] ∅ Sample.system_python.

(** A search path of the launcher's own. *)
Definition with_pythonpath : World :=
  Sample.world [] {[ "PYTHONPATH" := "/lib/py"; "HOME" := "/home/u" ]}
    Sample.system_python.

(** A virtual environment whose [python] is a directory. *)
Definition venv_directory : World :=
  Sample.world [] {[ "VIRTUAL_ENV" := "/venv" ]}
    {[ "/venv/bin/python" := {| st_type := Directory; st_exec := true |};
       "/venv/bin/python3" := Sample.regular_file false;
       "/usr/bin/python3" := Sample.regular_file true ]}.



End Texts.

(** * Properties *)

(** ** Option parsing *)

Section ParseConfig.
Context `{RT : Runtime}.
Local Open Scope list_scope.

Lemma indexOf_from_absent (x : string) (l : list string) (i : Z) :
  x ∉ l -> indexOf_from x l i = -1.
Proof.
  revert i. induction l as [|y l IH]; intros i Hx; simpl; [reflexivity|].
  apply not_elem_of_cons in Hx as [Hxy Hl].
  destruct (String.eqb_spec y x) as [->|_]; [contradiction|].
  now apply IH.
Qed.

Lemma indexOf_from_first (x : string) (pre rest : list string) (i : Z) :
  x ∉ pre -> indexOf_from x (pre ++ x :: rest) i = i + Z.of_nat (length pre).
Proof.
  revert i. induction pre as [|y pre IH]; intros i Hx; simpl.
  - rewrite String.eqb_refl. lia.
  - apply not_elem_of_cons in Hx as [Hxy Hpre].
    destruct (String.eqb_spec y x) as [->|_]; [contradiction|].
    rewrite IH by assumption. lia.
Qed.

Lemma element_after (pre rest : list string) :
  element (pre ++ rest) (Z.of_nat (length pre)) = head rest.
Proof.
  unfold element.
  destruct (Z.ltb_spec (Z.of_nat (length pre)) 0) as [Hneg|_]; [lia|].
  rewrite Nat2Z.id, lookup_app_r by lia.
  rewrite Nat.sub_diag. now destruct rest.
Qed.

(** The flag is absent: the empty configuration. *)
Lemma parseConfigArg_absent (args : list string) (p : proc) :
  "--config" ∉ args -> parseConfigArg args p = (Normal (VObj []), p).
Proof.
  intros Habs. unfold parseConfigArg, indexOf.
  now rewrite indexOf_from_absent.
Qed.

(** The first occurrence of the flag decides; what follows it is
    looked at only when it is a non-empty string. *)
Lemma parseConfigArg_first (pre rest : list string) (p : proc) :
  "--config" ∉ pre ->
  parseConfigArg (pre ++ "--config" :: rest) p =
    match head rest with
    | Some text =>
        if str_truthy text then
          match JSON_parse text with
          | inr v => (Normal v, p)
          | inl message =>
              (Exited 1,
               {| penv := penv p;
                  emitted := emitted p ++
                    [ConsoleError ("[mcp-service-registry] Invalid --config JSON: "
                                     ++ message)%string] |})
          end
        else (Normal (VObj []), p)
    | None => (Normal (VObj []), p)
    end.
Proof.
  intros Hpre. unfold parseConfigArg, indexOf.
  rewrite indexOf_from_first by assumption.
  replace (0 + Z.of_nat (length pre) + 1)
    with (Z.of_nat (length (pre ++ ["--config"]))) by (rewrite length_app; simpl; lia).
  replace (pre ++ "--config" :: rest) with ((pre ++ ["--config"]) ++ rest)
    by now rewrite <- app_assoc.
  rewrite element_after.
  destruct (Z.eqb_spec (0 + Z.of_nat (length pre)) (-1)) as [Hneg|_]; [lia|].
  destruct (head rest) as [text|]; simpl; [|reflexivity].
  destruct (str_truthy text); simpl; [|reflexivity].
  destruct (JSON_parse text); reflexivity.
Qed.

End ParseConfig.

(** ** The configuration stage of a launch *)

Section ConfigStage.
Context `{RT : Runtime}.
Local Open Scope list_scope.

Lemma str_truthy_nonempty (s : string) : s <> EmptyString -> str_truthy s = true.
Proof. destruct s; [contradiction | reflexivity]. Qed.

(** C10, amended. When the first [--config] is the last argument, or
    is followed by the empty string, option parsing returns the empty
    configuration and leaves the process untouched, exactly as for the
    argument list without the flag; the whole script then runs as it
    does without the flag. *)
Theorem config_flag_without_value (w : World) (pre post : list string) (p : proc) :
  "--config" ∉ pre ->
  argv w = pre ++ ["--config"] \/ argv w = pre ++ "--config" :: EmptyString :: post ->
  parseConfigArg (argv w) p = (Normal (VObj []), p)
  /\ parseConfigArg (argv w) p = parseConfigArg pre p
  /\ main w p = main (with_argv pre w) p.
Proof.
  intros Hpre Hargv.
  assert (Hparse : parseConfigArg (argv w) p = (Normal (VObj []), p)).
  { destruct Hargv as [-> | ->]; now rewrite parseConfigArg_first. }
  assert (Hwithout : parseConfigArg pre p = (Normal (VObj []), p))
    by now apply parseConfigArg_absent.
  split; [assumption|]. split; [congruence|].
  unfold main. run_script. unfold with_argv at 1. simpl.
  rewrite Hparse, Hwithout. reflexivity.
Qed.

(** C5, amended. When the first [--config] is followed by a non-empty
    text that [JSON.parse] rejects, the launcher writes the parse
    failure to the diagnostic stream and exits with status 1; nothing
    else is emitted, so no child is spawned. *)
Theorem malformed_config_exits_1 (w : World) (pre post : list string)
    (text message : string) :
  argv w = pre ++ "--config" :: text :: post ->
  "--config" ∉ pre ->
  text <> EmptyString ->
  JSON_parse text = inl message ->
  launch w =
    (Exited 1,
     [ConsoleError ("[mcp-service-registry] Invalid --config JSON: " ++ message)%string]).
Proof.
  intros Hargv Hpre Htext Hparse.
  unfold launch, main. run_script.
  rewrite Hargv, parseConfigArg_first by assumption. simpl.
  rewrite str_truthy_nonempty, Hparse by assumption. reflexivity.
Qed.

End ConfigStage.

(** ** The settings and the child environment *)

Section ChildEnvironment.
Context `{RT : Runtime}.
Local Open Scope list_scope.

Lemma js_or_chain (c : option jsval) (e : option string) (d : jsval) :
  js_or (js_or (default VUndefined c) (optional e)) d =
  by_precedence (present_truthy c) (VStr <$> set_nonempty e) d.
Proof.
  unfold js_or, present_truthy, set_nonempty, by_precedence.
  destruct c as [v|]; simpl.
  - destruct (truthy v) eqn:Hv; [now rewrite Hv|].
    destruct e as [s|]; simpl; [|reflexivity].
    destruct (str_truthy s) eqn:Hs; simpl; now rewrite ?Hs.
  - destruct e as [s|]; simpl; [|reflexivity].
    destruct (str_truthy s) eqn:Hs; simpl; now rewrite ?Hs.
Qed.

Lemma host_object (ms : list (string * jsval)) (p : proc) :
  host (VObj ms) p = (Normal (chosen_host ms (penv p)), p).
Proof. unfold host, chosen_host. run_script. now rewrite js_or_chain. Qed.

Lemma port_object (ms : list (string * jsval)) (p : proc) :
  port (VObj ms) p =
    match ToNumber (chosen_port ms (penv p)) with
    | Some n => (Normal n, p)
    | None => TypeError p
    end.
Proof.
  unfold port, chosen_port. run_script. rewrite js_or_chain.
  now destruct (ToNumber _).
Qed.

Lemma env_or_empty (e : option string) : env_or e EmptyString = default EmptyString e.
Proof.
  unfold env_or, js_or. destruct e as [s|]; simpl; [|reflexivity].
  now destruct s.
Qed.

Lemma debug_object (ms : list (string * jsval)) (p : proc) :
  debug (VObj ms) p = (Normal (truthy (chosen_debug ms (penv p))), p).
Proof.
  unfold debug, chosen_debug, js_coalesce, present_not_null, by_precedence, debug_variable.
  run_script. rewrite env_or_empty.
  destruct (member "debug" ms) as [v|]; simpl.
  - destruct (nullish v) eqn:Hv; [|reflexivity].
    now destruct (penv p !! "SERVICE_REGISTRY_DEBUG").
  - now destruct (penv p !! "SERVICE_REGISTRY_DEBUG").
Qed.
End ChildEnvironment.

Section Steps.
Context `{RT : Runtime}.
Local Open Scope list_scope.

Lemma bind_normal {A B} (m : M A) (k : A -> M B) (p q : proc) (b : B) :
  (m ≫= k) p = (Normal b, q) ->
  exists a p', m p = (Normal a, p') /\ k a p' = (Normal b, q).
Proof.
  unfold mbind, M_bind, bind. destruct (m p) as [[a|s|e] p'] eqn:Hm; intros H.
  - now exists a, p'.
  - discriminate.
  - discriminate.
Qed.

Lemma passthrough_object (ms : list (string * jsval)) (k K : string) (p : proc) :
  passthrough (VObj ms) k K p =
    match present_truthy (member k ms) with
    | None => (Normal tt, p)
    | Some v =>
        match ToString v with
        | Some s => (Normal tt, {| penv := <[K := s]> (penv p); emitted := emitted p |})
        | None => TypeError p
        end
    end.
Proof.
  unfold passthrough, present_truthy. run_script.
  destruct (member k ms) as [v|]; simpl; [|reflexivity].
  destruct (truthy v); [|reflexivity]. now destruct (ToString v).
Qed.

(** A passthrough that completes emits nothing and writes at most
    its own variable. *)
Lemma passthrough_frame (ms : list (string * jsval)) (k K : string) (p q : proc) (u : unit) :
  passthrough (VObj ms) k K p = (Normal u, q) ->
  emitted q = emitted p /\ forall key, key <> K -> penv q !! key = penv p !! key.
Proof.
  rewrite passthrough_object. destruct u.
  destruct (present_truthy (member k ms)) as [v|].
  - destruct (ToString v) as [s|]; [|discriminate].
    intros [= <-]. split; [reflexivity|]. intros key Hkey. simpl.
    now rewrite lookup_insert_ne.
  - intros [= <-]. now split.
Qed.

Lemma env_spec (w : World) (h : jsval) (n : number) (d : bool) (p : proc) :
  env w h n d p =
    match ToString h with
    | Some hs =>
        (Normal
           (<["PYTHONPATH" :=
                String.concat path_delimiter
                  (filter_truthy [repoRoot w; env_or (penv p !! "PYTHONPATH") EmptyString])]>
           (<["SERVICE_REGISTRY_DEBUG" := bool_string d]>
           (<["SERVICE_REGISTRY_PORT" := NumberToString n]>
           (<["SERVICE_REGISTRY_HOST" := hs]> (penv p))))), p)
    | None => TypeError p
    end.
Proof. unfold env. run_script. now destruct (ToString h). Qed.

(** The resolution reads two variables and the file system; it always
    completes and changes nothing. *)
Lemma PY_BIN_spec (w : World) (p : proc) :
  PY_BIN w p =
    (Normal
       match set_nonempty (penv p !! "PYTHON_BIN") with
       | Some b => Some b
       | None => find_isExec w (tries (penv p !! "VIRTUAL_ENV"))
       end, p).
Proof.
  unfold PY_BIN, set_nonempty, mbind, M_bind, bind, getenv.
  destruct (penv p !! "PYTHON_BIN") as [b|]; simpl; [|reflexivity].
  destruct (str_truthy b) eqn:Hb; simpl; [|reflexivity].
  now rewrite Hb.
Qed.

End Steps.

Section Launch.
Context `{RT : Runtime}.
Local Open Scope list_scope.

Lemma selected_spec (w : World) :
  selected w =
    match set_nonempty (environ w !! "PYTHON_BIN") with
    | Some b => Some b
    | None => find_isExec w (tries (environ w !! "VIRTUAL_ENV"))
    end.
Proof. unfold selected. now rewrite PY_BIN_spec. Qed.

(** Every launch that reaches [spawn] hands the child the three
    settings chosen by the precedence of the script. *)
Lemma spawned_child_settings (w : World) (ms : list (string * jsval))
    (c : ChildProcess) (q : proc) :
  parseConfigArg (argv w) (start w) = (Normal (VObj ms), start w) ->
  main w (start w) = (Normal c, q) ->
  child_settings c (chosen_host ms (environ w)) (chosen_port ms (environ w))
    (chosen_debug ms (environ w)).
Proof.
  intros Hcfg Hmain. unfold main in Hmain.
  apply bind_normal in Hmain as (cfg & p1 & H1 & Hmain).
  rewrite Hcfg in H1. injection H1 as <- <-.
  apply bind_normal in Hmain as (h & p2 & H2 & Hmain).
  rewrite host_object in H2. injection H2 as <- <-.
  apply bind_normal in Hmain as (n & p3 & H3 & Hmain).
  rewrite port_object in H3.
  destruct (ToNumber (chosen_port ms (penv (start w)))) as [n'|] eqn:Hn; [|unfold TypeError, throw in H3; discriminate H3].
  injection H3 as <- <-.
  apply bind_normal in Hmain as (d & p4 & H4 & Hmain).
  rewrite debug_object in H4. injection H4 as <- <-.
  apply bind_normal in Hmain as (u5 & p5 & H5 & Hmain).
  apply bind_normal in Hmain as (u6 & p6 & H6 & Hmain).
  apply bind_normal in Hmain as (e & p7 & H7 & Hmain).
  rewrite env_spec in H7.
  destruct (ToString (chosen_host _ _)) as [hs|] eqn:Hhs; [|unfold TypeError, throw in H7; discriminate H7].
  injection H7 as <- <-.
  apply bind_normal in Hmain as (b & p8 & H8 & Hmain).
  destruct b as [bin|].
  - unfold console_log, emit, mbind, M_bind, bind, mret, M_ret, ret in Hmain.
    injection Hmain as <- _.
    change (penv (start w)) with (environ w) in Hn.
    unfold child_settings. cbn [child_env]. rewrite Hhs, Hn.
    repeat split.
    all: rewrite ?lookup_insert_ne by done; now rewrite lookup_insert_eq.
  - unfold console_error, process_exit, emit, mbind, M_bind, bind in Hmain.
    discriminate Hmain.
Qed.

Lemma bind_step {A B} (m : M A) (k : A -> M B) (p p' : proc) (a : A) :
  m p = (Normal a, p') -> (m ≫= k) p = k a p'.
Proof. intros Hm. unfold mbind, M_bind, bind. now rewrite Hm. Qed.

Lemma passthrough_completes (ms : list (string * jsval)) (k K : string) (p : proc) :
  convertible (member k ms) ->
  exists q, passthrough (VObj ms) k K p = (Normal tt, q)
    /\ emitted q = emitted p
    /\ forall key, key <> K -> penv q !! key = penv p !! key.
Proof.
  intros Hconv.
  assert (Hrun : exists q, passthrough (VObj ms) k K p = (Normal tt, q)).
  { rewrite passthrough_object.
    destruct (present_truthy (member k ms)) as [v|] eqn:Hv; [|eauto].
    destruct (Hconv v Hv) as [s ->]. eauto. }
  destruct Hrun as [q Hq]. exists q. split; [assumption|].
  now apply passthrough_frame in Hq.
Qed.

(** When the configuration is an object, the values it contributes
    can be converted and an interpreter is selected, the launcher logs
    two lines and spawns the child. *)
Lemma launch_spawns (w : World) (ms : list (string * jsval))
    (hs : string) (n : number) (bin : string) :
  parseConfigArg (argv w) (start w) = (Normal (VObj ms), start w) ->
  ToString (chosen_host ms (environ w)) = Some hs ->
  ToNumber (chosen_port ms (environ w)) = Some n ->
  convertible (member "perplexityApiKey" ms) ->
  convertible (member "perplexityModel" ms) ->
  selected w = Some bin ->
  exists c,
    launch w =
      (Normal c,
       [ConsoleLog ("[mcp-service-registry] Using Python: " ++ bin)%string;
        ConsoleLog ("[mcp-service-registry] Starting ServiceRegistry at http://"
                      ++ hs ++ ":" ++ NumberToString n ++ "/mcp")%string;
        Spawn c])
    /\ child_command c = bin
    /\ child_args c = ["-m"; "registry.service_registry_server"]
    /\ child_cwd c = repoRoot w
    /\ child_settings c (chosen_host ms (environ w)) (chosen_port ms (environ w))
         (chosen_debug ms (environ w)).
Proof.
  intros Hcfg Hhs Hn Hkey Hmodel Hsel.
  destruct (passthrough_completes ms "perplexityApiKey" "PERPLEXITY_API_KEY"
              (start w) Hkey) as (p5 & H5 & Hout5 & Henv5).
  destruct (passthrough_completes ms "perplexityModel" "PERPLEXITY_MODEL"
              p5 Hmodel) as (p6 & H6 & Hout6 & Henv6).
  assert (Hport : port (VObj ms) (start w) = (Normal n, start w)).
  { rewrite port_object. change (penv (start w)) with (environ w). now rewrite Hn. }
  assert (Hbin : PY_BIN w p6 = (Normal (Some bin), p6)).
  { rewrite PY_BIN_spec, !Henv6, !Henv5 by done.
    change (penv (start w)) with (environ w). now rewrite <- selected_spec, Hsel. }
  pose (c := {| child_command := bin;
                child_args := ["-m"; "registry.service_registry_server"];
                child_env :=
                  <["PYTHONPATH" :=
                      String.concat path_delimiter
                        (filter_truthy
                           [repoRoot w; env_or (penv p6 !! "PYTHONPATH") EmptyString])]>
                  (<["SERVICE_REGISTRY_DEBUG" :=
                       bool_string (truthy (chosen_debug ms (environ w)))]>
                  (<["SERVICE_REGISTRY_PORT" := NumberToString n]>
                  (<["SERVICE_REGISTRY_HOST" := hs]> (penv p6))));
                child_cwd := repoRoot w |}).
  assert (Hmain : main w (start w) =
    (Normal c,
     {| penv := penv p6;
        emitted :=
          [ConsoleLog ("[mcp-service-registry] Using Python: " ++ bin)%string;
           ConsoleLog ("[mcp-service-registry] Starting ServiceRegistry at http://"
                         ++ hs ++ ":" ++ NumberToString n ++ "/mcp")%string;
           Spawn c] |})).
  { unfold main.
    rewrite (bind_step _ _ _ _ _ Hcfg).
    rewrite (bind_step _ _ _ _ _ (host_object ms (start w))).
    rewrite (bind_step _ _ _ _ _ Hport).
    rewrite (bind_step _ _ _ _ _ (debug_object ms (start w))).
    rewrite (bind_step _ _ _ _ _ H5).
    rewrite (bind_step _ _ _ _ _ H6).
    change (penv (start w)) with (environ w).
    erewrite bind_step by (rewrite env_spec, Hhs; reflexivity).
    rewrite (bind_step _ _ _ _ _ Hbin).
    unfold console_log, emit, mbind, M_bind, bind, mret, M_ret, ret.
    rewrite Hhs, Hout6, Hout5. reflexivity. }
  exists c. split; [|repeat split; try reflexivity].
  - unfold launch. now rewrite Hmain.
  - now apply (spawned_child_settings w ms c _ Hcfg Hmain).
  - now apply (spawned_child_settings w ms c _ Hcfg Hmain).
  - now apply (spawned_child_settings w ms c _ Hcfg Hmain).
Qed.

End Launch.

(** ** Interpreter resolution and the shell *)

Create HintDb shell.

Section ShellFree.
Context `{RT : Runtime}.
Local Open Scope list_scope.

Lemma no_lookup_snoc (evs : list event) (e : event) :
  no_lookup evs ->
  match e with SpawnSync _ _ => False | _ => True end ->
  no_lookup (evs ++ [e]).
Proof.
  intros Hevs He. apply Forall_app. split; [assumption|].
  now constructor.
Qed.

Lemma shell_free_ret {A} (a : A) : shell_free (mret a).
Proof. now intros p Hp. Qed.

Lemma shell_free_bind {A B} (m : M A) (k : A -> M B) :
  shell_free m -> (forall a, shell_free (k a)) -> shell_free (m ≫= k).
Proof.
  intros Hm Hk p Hp. specialize (Hm p Hp).
  unfold mbind, M_bind, bind.
  destruct (m p) as [[a|status|error] p']; simpl in *; [|assumption..].
  now apply Hk.
Qed.

Lemma shell_free_getenv (k : string) : shell_free (getenv k).
Proof. now intros p Hp. Qed.

Lemma shell_free_setenv (k v : string) : shell_free (setenv k v).
Proof. now intros p Hp. Qed.

Lemma shell_free_throw {A} (error : string) : shell_free (@throw A error).
Proof. now intros p Hp. Qed.

Lemma shell_free_TypeError {A} : shell_free (@TypeError A).
Proof. now intros p Hp. Qed.

Lemma shell_free_process_exit {A} (status : Z) : shell_free (@process_exit A status).
Proof. now intros p Hp. Qed.

Lemma shell_free_console_error (line : string) : shell_free (console_error line).
Proof. intros p Hp. now apply no_lookup_snoc. Qed.

Lemma shell_free_console_log (line : string) : shell_free (console_log line).
Proof. intros p Hp. now apply no_lookup_snoc. Qed.

Lemma shell_free_spawn (c : ChildProcess) : shell_free (emit (Spawn c)).
Proof. intros p Hp. now apply no_lookup_snoc. Qed.

Hint Resolve shell_free_ret shell_free_getenv shell_free_setenv shell_free_throw
  shell_free_TypeError shell_free_process_exit shell_free_console_error
  shell_free_console_log shell_free_spawn : shell.

Ltac shell_free :=
  repeat first
    [ solve [auto with shell]
    | apply shell_free_bind; [|intro]
    | case_match ].

Lemma shell_free_get (o : jsval) (k : string) : shell_free (get o k).
Proof. unfold get. shell_free. Qed.

Lemma shell_free_parseConfigArg (args : list string) : shell_free (parseConfigArg args).
Proof. unfold parseConfigArg. shell_free. Qed.

Hint Resolve shell_free_get shell_free_parseConfigArg : shell.

Lemma shell_free_host (cfg : jsval) : shell_free (host cfg).
Proof. unfold host. shell_free. Qed.

Lemma shell_free_port (cfg : jsval) : shell_free (port cfg).
Proof. unfold port. shell_free. Qed.

Lemma shell_free_debug (cfg : jsval) : shell_free (debug cfg).
Proof. unfold debug. shell_free. Qed.

Lemma shell_free_passthrough (cfg : jsval) (k K : string) :
  shell_free (passthrough cfg k K).
Proof. unfold passthrough. shell_free. Qed.

Lemma shell_free_env (w : World) (h : jsval) (n : number) (d : bool) :
  shell_free (env w h n d).
Proof. unfold env. shell_free. now intros p Hp. Qed.

Lemma shell_free_PY_BIN (w : World) : shell_free (PY_BIN w).
Proof. unfold PY_BIN. shell_free. Qed.

Hint Resolve shell_free_host shell_free_port shell_free_debug shell_free_passthrough
  shell_free_env shell_free_PY_BIN : shell.

Lemma shell_free_main (w : World) : shell_free (main w).
Proof. unfold main. shell_free. Qed.

End ShellFree.

Section ResolutionFacts.
Context `{RT : Runtime}.
Local Open Scope list_scope.

Lemma isExec_same_file (w w' : World) (p : string) :
  fs w !! p = fs w' !! p -> isExec w (Some p) = isExec w' (Some p).
Proof. intros Hp. unfold isExec, existsSync, statSync. now rewrite Hp. Qed.

Lemma find_isExec_same_files (w w' : World) (l : list string) :
  (forall p, p ∈ l -> fs w !! p = fs w' !! p) ->
  find_isExec w l = find_isExec w' l.
Proof.
  unfold find_isExec. induction l as [|c l IH]; intros Hl; [reflexivity|].
  cbn [List.find].
  rewrite (isExec_same_file w w' c) by (apply Hl; left).
  destruct (isExec w' (Some c)); [reflexivity|].
  apply IH. intros p Hp. apply Hl. now right.
Qed.

(** What the search finds was probed, and it exists as a regular
    file. *)
Lemma find_isExec_found (w : World) (l : list string) (p : string) :
  find_isExec w l = Some p -> p ∈ l /\ isExec w (Some p) = true.
Proof.
  unfold find_isExec. intros Hfind.
  apply List.find_some in Hfind as [Hin Hexec].
  split; [now apply list_elem_of_In | assumption].
Qed.

Lemma isExec_regular_file (w : World) (p : string) :
  isExec w (Some p) = true ->
  exists st, fs w !! p = Some st /\ st_type st = Regular.
Proof.
  unfold isExec, existsSync, statSync, Stats_isFile.
  destruct (fs w !! p) as [st|]; [|now rewrite andb_false_r].
  intros H. exists st. split; [reflexivity|].
  apply andb_true_iff in H as [_ H]. now destruct (st_type st).
Qed.

Lemma isExec_empty (w : World) : isExec w (Some EmptyString) = false.
Proof. reflexivity. Qed.

(** Dropping the empty strings from the paths to try does not change
    what the search finds: the empty path is never a hit. *)
Lemma find_isExec_filter_truthy (w : World) (l : list string) :
  find_isExec w (filter_truthy l) = find_isExec w l.
Proof.
  unfold find_isExec, filter_truthy.
  induction l as [|c l IH]; [reflexivity|].
  cbn [List.filter List.find].
  destruct c as [|a c]; cbn [str_truthy].
  - now rewrite isExec_empty.
  - cbn [List.find]. now rewrite IH.
Qed.

Lemma tries_listed (venv : option string) :
  tries venv = filter_truthy (listed_candidates venv).
Proof.
  unfold tries, listed_candidates, set_nonempty.
  destruct venv as [v|]; [|reflexivity].
  cbn [optional truthy default]. now destruct (str_truthy v).
Qed.

Lemma find_isExec_tries (w : World) (venv : option string) :
  find_isExec w (tries venv) = find_isExec w (listed_candidates venv).
Proof. now rewrite tries_listed, find_isExec_filter_truthy. Qed.

(** The function the script defines and does not call is the ordered
    search with every candidate probed, the override included; its
    fourth step never runs. *)
Lemma resolvePython_spec (w : World) (p : proc) :
  resolvePython w p =
    (Normal
       (find_isExec w
          (option_list (set_nonempty (penv p !! "PYTHON_BIN")) ++
           listed_candidates (penv p !! "VIRTUAL_ENV"))), p).
Proof.
  unfold resolvePython, mbind, M_bind, bind, getenv, mret, M_ret, ret.
  unfold find_isExec, listed_candidates, set_nonempty. cbv beta iota.
  destruct (penv p !! "PYTHON_BIN") as [b|].
  - destruct (isExec w (Some b)) eqn:Hb.
    + assert (Hne : str_truthy b = true).
      { destruct b; [discriminate Hb | reflexivity]. }
      rewrite Hne. cbn [option_list option_rect app List.find]. now rewrite Hb.
    + destruct (str_truthy b);
        cbn [option_list option_rect app List.find]; rewrite ?Hb;
        destruct (penv p !! "VIRTUAL_ENV") as [v|]; cbn [optional truthy default from_option id];
        try destruct (str_truthy v);
        cbn [option_list option_rect flat_map app List.find];
        repeat (destruct (isExec w (Some _)); try reflexivity).
  - change (isExec w None) with false. cbn [option_list option_rect app].
    destruct (penv p !! "VIRTUAL_ENV") as [v|]; cbn [optional truthy default from_option id];
      try destruct (str_truthy v);
      cbn [option_list option_rect flat_map app List.find];
      repeat (destruct (isExec w (Some _)); try reflexivity).
Qed.

(** The resolution the script runs gives what the search over all six
    candidates gives exactly when the override is unset or empty or
    names an existing regular file. *)
Lemma selected_is_search_iff (w : World) :
  selected w = find_isExec w (candidates w) <->
  set_nonempty (environ w !! "PYTHON_BIN") = None
  \/ isExec w (environ w !! "PYTHON_BIN") = true.
Proof.
  rewrite selected_spec, find_isExec_tries.
  unfold candidates, find_isExec, set_nonempty.
  destruct (environ w !! "PYTHON_BIN") as [b|]; cbn [option_list option_rect app].
  - destruct (str_truthy b) eqn:Hb; cbn [option_list option_rect app List.find].
    + destruct (isExec w (Some b)) eqn:Hexec.
      * split; [now right | reflexivity].
      * split; [|intros [H|H]; discriminate H].
        intros Hfind. symmetry in Hfind.
        apply List.find_some in Hfind as [_ Hfind].
        change (isExec w (Some b) = true) in Hfind. congruence.
    + split; [now left | reflexivity].
  - split; [now left | reflexivity].
Qed.

(** The selection depends on the override, the virtual environment and
    the files at the listed paths only. *)
Lemma selected_same_candidates (w w' : World) :
  same_candidates w w' -> selected w = selected w'.
Proof.
  intros (Hbin & Hvenv & Hfiles).
  rewrite !selected_spec, !find_isExec_tries, <- Hbin, <- Hvenv.
  destruct (set_nonempty (environ w !! "PYTHON_BIN")); [reflexivity|].
  now apply find_isExec_same_files.
Qed.

End ResolutionFacts.

(** C9. The resolution the script runs is not the search over the
    override, the two virtual-environment paths and the three fixed
    paths.  When the override names a file that does not exist and the
    system interpreter is installed, that search yields the system
    interpreter, under the stated test as under the probe of the
    script, while the script settles on the override.  The rest holds
    in every world and for every runtime: the launcher emits no shell
    lookup; the function that defines the lookup closure returns what
    the search over the six candidates finds, without running the
    closure and leaving the process as it was; the script selects what
    that search finds exactly when the override is unset or empty or
    names an existing regular file; and two worlds with the same
    override, the same virtual environment and the same files at the
    listed paths select the same interpreter, whatever the shell would
    answer. *)
Theorem selection_is_not_the_listed_search :
  (selected (RT := Sample.node) Sample.override_missing = Some "/missing/python"
   /\ resolution_as_stated (RT := Sample.node) Sample.override_missing
      = Some "/usr/bin/python3"
   /\ find_isExec Sample.override_missing
        (candidates (RT := Sample.node) Sample.override_missing)
      = Some "/usr/bin/python3"
   /\ ~ resolution_is_listed_search (RT := Sample.node) Sample.override_missing)
  /\ forall (RT : Runtime) (w : World),
       no_lookup (launch w).2
       /\ resolvePython w (start w) = (Normal (find_isExec w (candidates w)), start w)
       /\ (selected w = find_isExec w (candidates w) <->
           set_nonempty (environ w !! "PYTHON_BIN") = None
           \/ isExec w (environ w !! "PYTHON_BIN") = true)
       /\ (forall w', same_candidates w w' -> selected w = selected w').
Proof.
  split.
  - repeat split. intros [Hsame _]. discriminate Hsame.
  - intros RT w. repeat split.
    + unfold launch. cbn [snd]. apply shell_free_main. constructor.
    + apply resolvePython_spec.
    + apply selected_is_search_iff.
    + apply selected_is_search_iff.
    + apply selected_same_candidates.
Qed.

(** ** The override variable is taken unverified *)

Section Override.
Context `{RT : Runtime}.
Local Open Scope list_scope.

(** Without an override the script does run the ordered search:
    the first of the tried paths that exist as regular files. *)
Lemma selected_without_override (w : World) :
  set_nonempty (environ w !! "PYTHON_BIN") = None ->
  selected w = find_isExec w (tries (environ w !! "VIRTUAL_ENV")).
Proof. intros Hnone. now rewrite selected_spec, Hnone. Qed.


(** When the configuration is an object whose values can be
    converted and nothing is selected, the final guard ends the
    launcher: four lines of remediation text, status 127, no child. *)
Lemma launch_unresolved (w : World) (ms : list (string * jsval))
    (hs : string) (n : number) :
  parseConfigArg (argv w) (start w) = (Normal (VObj ms), start w) ->
  ToString (chosen_host ms (environ w)) = Some hs ->
  ToNumber (chosen_port ms (environ w)) = Some n ->
  convertible (member "perplexityApiKey" ms) ->
  convertible (member "perplexityModel" ms) ->
  selected w = None ->
  launch w =
    (Exited 127,
     [ConsoleError "ERROR: Python interpreter not found.";
      ConsoleError "Quick fixes:";
      ConsoleError "  1) Install Homebrew Python:   brew install python";
      ConsoleError
        "  2) Or set an explicit path:   export PYTHON_BIN=/opt/homebrew/bin/python3"]).
Proof.
  intros Hcfg Hhs Hn Hkey Hmodel Hsel.
  destruct (passthrough_completes ms "perplexityApiKey" "PERPLEXITY_API_KEY"
              (start w) Hkey) as (p5 & H5 & Hout5 & Henv5).
  destruct (passthrough_completes ms "perplexityModel" "PERPLEXITY_MODEL"
              p5 Hmodel) as (p6 & H6 & Hout6 & Henv6).
  assert (Hport : port (VObj ms) (start w) = (Normal n, start w)).
  { rewrite port_object. change (penv (start w)) with (environ w). now rewrite Hn. }
  assert (Hbin : PY_BIN w p6 = (Normal None, p6)).
  { rewrite PY_BIN_spec, !Henv6, !Henv5 by done.
    change (penv (start w)) with (environ w). now rewrite <- selected_spec, Hsel. }
  unfold launch, main.
  rewrite (bind_step _ _ _ _ _ Hcfg).
  rewrite (bind_step _ _ _ _ _ (host_object ms (start w))).
  rewrite (bind_step _ _ _ _ _ Hport).
  rewrite (bind_step _ _ _ _ _ (debug_object ms (start w))).
  rewrite (bind_step _ _ _ _ _ H5).
  rewrite (bind_step _ _ _ _ _ H6).
  change (penv (start w)) with (environ w).
  erewrite bind_step by (rewrite env_spec, Hhs; reflexivity).
  rewrite (bind_step _ _ _ _ _ Hbin).
  unfold console_error, process_exit, emit, mbind, M_bind, bind. cbn [fst snd emitted].
  now rewrite Hout6, Hout5.
Qed.

End Override.

Lemma sample_args_without_flag :
  "--config" ∉ ["/usr/local/bin/node"; "/repo/runner/bin/run.js"].
Proof.
  apply not_elem_of_cons. split; [discriminate|].
  apply not_elem_of_cons. split; [discriminate|].
  apply not_elem_of_nil.
Qed.

(** C1. The ordered search over valid binaries and the selection of the
    script differ.  When the override names a file that does not exist
    and the system interpreter is installed, the search yields the
    system interpreter (and so does the function the script defines
    and does not call), while the script settles on the override.  When
    the only candidate on disk is a regular file that may not be
    executed, the search finds nothing and the script selects it. *)
Theorem override_is_not_probed :
  resolution_as_stated (RT := Sample.node) Sample.override_missing
    = Some "/usr/bin/python3"
  /\ (resolvePython (RT := Sample.node) Sample.override_missing
        (start Sample.override_missing)).1 = Normal (Some "/usr/bin/python3")
  /\ selected (RT := Sample.node) Sample.override_missing = Some "/missing/python"
  /\ resolution_as_stated (RT := Sample.node) Sample.not_executable = None
  /\ selected (RT := Sample.node) Sample.not_executable = Some "/usr/bin/python3".
Proof. repeat split. Qed.

(** C2. With an override that names a file that does not exist, the
    launcher spawns the override although nothing at that path was
    verified: the path is absent, the probe of the script would have
    rejected it, and it is no valid binary. *)
Theorem unverified_path_is_spawned :
  exists c evs,
    launch (RT := Sample.node) Sample.override_missing = (Normal c, evs)
    /\ Spawn c ∈ evs
    /\ child_command c = "/missing/python"
    /\ fs Sample.override_missing !! "/missing/python" = None
    /\ isExec Sample.override_missing (Some "/missing/python") = false
    /\ ~ selection_is_verified (RT := Sample.node) Sample.override_missing.
Proof.
  destruct (launch (RT := Sample.node) Sample.override_missing) as [r evs] eqn:Hl.
  vm_compute in Hl. injection Hl as <- <-.
  eexists _, _. split; [reflexivity|].
  split; [repeat constructor|].
  split; [reflexivity|]. split; [reflexivity|]. split; [reflexivity|].
  intros Hverified. specialize (Hverified _ _ eq_refl). discriminate Hverified.
Qed.

(** C6. The override names a file that does not exist and nothing else
    is installed: no candidate is a valid binary, and the launcher
    spawns the override instead of ending with status 127. *)
Theorem missing_override_is_not_reported :
  (forall p, p ∈ candidates (RT := Sample.node) Sample.override_missing_nothing_installed ->
             valid_binary Sample.override_missing_nothing_installed p = false)
  /\ (exists c evs,
        launch (RT := Sample.node) Sample.override_missing_nothing_installed = (Normal c, evs)
        /\ Spawn c ∈ evs
        /\ child_command c = "/missing/python")
  /\ ~ unresolvable_is_fatal (RT := Sample.node) Sample.override_missing_nothing_installed.
Proof.
  assert (Hnone : forall p,
    p ∈ candidates (RT := Sample.node) Sample.override_missing_nothing_installed ->
    valid_binary Sample.override_missing_nothing_installed p = false).
  { intros p _. reflexivity. }
  split; [exact Hnone|]. split.
  - destruct (launch (RT := Sample.node) Sample.override_missing_nothing_installed)
      as [r evs] eqn:Hl.
    vm_compute in Hl. injection Hl as <- <-.
    eexists _, _. split; [reflexivity|]. split; [repeat constructor | reflexivity].
  - intros Hfatal. destruct (Hfatal Hnone) as (Hexit & _). discriminate Hexit.
Qed.

(** ** Settings: what the description says and what the script does *)

Section Settings.
Context `{RT : Runtime}.
Local Open Scope list_scope.

(** The two readings agree as long as no field is falsy or null and
    no variable is empty. *)
Lemma chosen_host_stated (ms : list (string * jsval)) (vars : gmap string string) :
  (forall v, member "host" ms = Some v -> truthy v = true) ->
  (forall e, vars !! "SERVICE_REGISTRY_HOST" = Some e -> e <> EmptyString) ->
  chosen_host ms vars = stated_host ms vars.
Proof.
  intros Hv He. unfold chosen_host, stated_host, present_truthy, set_nonempty.
  destruct (member "host" ms) as [v|]; [now rewrite Hv|].
  destruct (vars !! "SERVICE_REGISTRY_HOST") as [e|]; [|reflexivity].
  now rewrite str_truthy_nonempty by now apply He.
Qed.

Lemma chosen_port_stated (ms : list (string * jsval)) (vars : gmap string string) :
  (forall v, member "port" ms = Some v -> truthy v = true) ->
  (forall e, vars !! "SERVICE_REGISTRY_PORT" = Some e -> e <> EmptyString) ->
  chosen_port ms vars = stated_port ms vars.
Proof.
  intros Hv He. unfold chosen_port, stated_port, present_truthy, set_nonempty.
  destruct (member "port" ms) as [v|]; [now rewrite Hv|].
  destruct (vars !! "SERVICE_REGISTRY_PORT") as [e|]; [|reflexivity].
  now rewrite str_truthy_nonempty by now apply He.
Qed.

Lemma chosen_debug_stated (ms : list (string * jsval)) (vars : gmap string string) :
  (forall v, member "debug" ms = Some v -> nullish v = false) ->
  chosen_debug ms vars = stated_debug ms vars.
Proof.
  intros Hv. unfold chosen_debug, stated_debug, present_not_null.
  destruct (member "debug" ms) as [v|]; [now rewrite Hv|reflexivity].
Qed.




End Settings.



(** The port variable is [abc]: the child is spawned, with port NaN. *)
Lemma port_variable_abc_is_spawned :
  ~ non_numeric_port_is_fatal (RT := Sample.node) Sample.port_variable_abc [].
Proof.
  intros H. destruct (H eq_refl eq_refl) as ((status & Hexit & _) & _).
  discriminate Hexit.
Qed.


(** The flag followed by the empty text, which is not JSON: the launcher goes on
    to spawn the child. *)
Lemma empty_config_text_is_not_fatal :
  ~ invalid_config_is_fatal (RT := Sample.node) Sample.config_empty_text EmptyString.
Proof.
  intros H.
  assert (Hflag : flag_followed_by Sample.config_empty_text EmptyString).
  { exists ["/usr/local/bin/node"; "/repo/runner/bin/run.js"], [].
    split; [reflexivity|]. apply sample_args_without_flag. }
  destruct (H Hflag (ex_intro _ _ eq_refl)) as (Hexit & _).
  discriminate Hexit.
Qed.

Lemma malformed_config_exits_1_witness :
  launch (RT := Sample.node)
    (Sample.world ["--config"; "["] ∅ Sample.system_python) =
    (Exited 1,
     [ConsoleError "[mcp-service-registry] Invalid --config JSON: Unexpected end of JSON input"]).
Proof.
  exact (malformed_config_exits_1 (RT := Sample.node)
           (Sample.world ["--config"; "["] ∅ Sample.system_python)
           ["/usr/local/bin/node"; "/repo/runner/bin/run.js"] [] "["
           "Unexpected end of JSON input"
           eq_refl sample_args_without_flag ltac:(discriminate) eq_refl).
Defined.

Lemma config_flag_without_value_witness :
  parseConfigArg (RT := Sample.node) ["/usr/local/bin/node"; "/repo/runner/bin/run.js"; "--config"]
    (start Sample.config_empty_text)
    = (Normal (VObj []), start Sample.config_empty_text)
  /\ main (RT := Sample.node) Sample.config_empty_text (start Sample.config_empty_text)
     = main (RT := Sample.node) (Sample.world [] ∅ Sample.system_python)
         (start Sample.config_empty_text).
Proof.
  split.
  - apply (config_flag_without_value (RT := Sample.node)
             (Sample.world ["--config"] ∅ Sample.system_python)
             ["/usr/local/bin/node"; "/repo/runner/bin/run.js"] []
             (start Sample.config_empty_text) sample_args_without_flag (or_introl eq_refl)).
  - apply (config_flag_without_value (RT := Sample.node) Sample.config_empty_text
             ["/usr/local/bin/node"; "/repo/runner/bin/run.js"] []
             (start Sample.config_empty_text) sample_args_without_flag (or_intror eq_refl)).
Defined.

(** The flag is the last argument, after a first flag followed by a
    text that is not JSON: the launcher reports the text and exits
    with status 1. *)
Lemma last_flag_after_malformed_flag :
  ~ flag_without_value_is_ignored (RT := Sample.node) Sample.flag_last_after_malformed
  /\ launch (RT := Sample.node) Sample.flag_last_after_malformed =
       (Exited 1,
        [ConsoleError
           "[mcp-service-registry] Invalid --config JSON: Unexpected end of JSON input"]).
Proof.
  split; [|reflexivity].
  intros H.
  assert (Hlast : exists pre,
            argv Sample.flag_last_after_malformed = (pre ++ ["--config"])%list).
  { now exists ["/usr/local/bin/node"; "/repo/runner/bin/run.js"; "--config"; "["]. }
  specialize (H (or_introl Hlast)). discriminate H.
Qed.

(** ** Supervision *)

Section Supervision.
Context `{RT : Runtime}.
Local Open Scope list_scope.

Lemma react_relayed (name : string) :
  relayed name -> react (Signal name) = (Supervising, [ChildKill name]).
Proof. now intros [-> | ->]. Qed.

Lemma react_exit (code : option Z) (by_signal : option string) :
  react (ChildExit code by_signal) =
    (Ended (default 0 code), [ProcessExit (default 0 code)]).
Proof. now destruct code. Qed.

Lemma supervise_relayed (names : list string) (evs : list os_event) :
  Forall relayed names ->
  supervise Supervising ((Signal <$> names) ++ evs) =
    ((supervise Supervising evs).1,
     (ChildKill <$> names) ++ (supervise Supervising evs).2).
Proof.
  induction 1 as [|name names Hname _ IH]; [now destruct (supervise _ _)|].
  cbn [fmap list_fmap app supervise].
  rewrite react_relayed by assumption. cbn [fst snd].
  now rewrite IH.
Qed.

Lemma supervise_exit (code : option Z) (by_signal : option string)
    (rest : list os_event) :
  supervise Supervising (ChildExit code by_signal :: rest) =
    (Ended (default 0 code), [ProcessExit (default 0 code)]).
Proof.
  cbn [supervise]. rewrite react_exit. cbn [fst snd].
  now destruct rest.
Qed.

Lemma is_relayed_spec (name : string) : is_relayed name = true <-> relayed name.
Proof.
  unfold is_relayed, relayed. rewrite orb_true_iff, !String.eqb_eq. reflexivity.
Qed.

Lemma react_signal (name : string) :
  react (Signal name) =
    if is_relayed name then (Supervising, [ChildKill name])
    else match signal_default name with
         | Ends => (Defaulted name, [])
         | Survives => (Supervising, [])
         end.
Proof.
  unfold react, signal_listeners, signal_listener, is_relayed.
  cbn [List.map listener_for].
  rewrite (String.eqb_sym "SIGINT" name), (String.eqb_sym "SIGTERM" name).
  destruct (String.eqb_spec name "SIGINT") as [->|_]; [reflexivity|].
  destruct (String.eqb_spec name "SIGTERM") as [->|_]; reflexivity.
Qed.

(** The event loop ends with a status only on the exit of the child. *)
Lemma supervise_ended (evs : list os_event) (status : Z) (acts : list action) :
  supervise Supervising evs = (Ended status, acts) ->
  exists code by_signal, ChildExit code by_signal ∈ evs /\ status = default 0 code.
Proof.
  revert acts. induction evs as [|e evs IH]; intros acts; [discriminate|].
  destruct e as [name | code by_signal | message].
  - cbn [supervise]. rewrite react_signal.
    destruct (is_relayed name); [|destruct (signal_default name)]; cbn [fst snd].
    + destruct (supervise Supervising evs) as [st acts'] eqn:Hrest. cbn [fst snd].
      intros [= -> _]. destruct (IH _ eq_refl) as (code & by_signal & Hin & ->).
      exists code, by_signal. split; [now apply list_elem_of_further | reflexivity].
    + destruct evs; discriminate.
    + destruct (supervise Supervising evs) as [st acts'] eqn:Hrest. cbn [fst snd].
      intros [= -> _]. destruct (IH _ eq_refl) as (code & by_signal & Hin & ->).
      exists code, by_signal. split; [now apply list_elem_of_further | reflexivity].
  - rewrite supervise_exit. intros [= <- _].
    exists code, by_signal. split; [apply list_elem_of_here | reflexivity].
  - cbn [supervise react fst snd]. destruct evs; discriminate.
Qed.

(** C7. Once a child was spawned, its [exit] event ends the launcher:
    with the child's status code when it has one, with status 0 when
    the child was ended by a signal and has none. *)
Theorem child_status_is_propagated (w : World) (c : ChildProcess) (out : list event)
    (by_signal : option string) (rest : list os_event) :
  launch w = (Normal c, out) ->
  (forall status,
     program w (ChildExit (Some status) by_signal :: rest)
     = (Ended status, out, [ProcessExit status]))
  /\ program w (ChildExit None by_signal :: rest) = (Ended 0, out, [ProcessExit 0]).
Proof.
  intros Hlaunch. unfold program. rewrite Hlaunch.
  split; [intros status|]; now rewrite supervise_exit.
Qed.

(** C8. While the child runs, every interrupt or terminate signal the
    launcher receives is passed to the child under the same name and
    nothing else happens: the launcher emits nothing more, performs
    no exit and keeps supervising.  It ends only with the [exit]
    event of the child, after the signals received until then have
    been relayed. *)
Theorem signals_are_relayed (w : World) (c : ChildProcess) (out : list event)
    (names : list string) :
  launch w = (Normal c, out) ->
  Forall relayed names ->
  program w (Signal <$> names) = (Supervising, out, ChildKill <$> names)
  /\ forall code by_signal rest,
       program w ((Signal <$> names) ++ ChildExit code by_signal :: rest)
       = (Ended (default 0 code), out,
          (ChildKill <$> names) ++ [ProcessExit (default 0 code)]).
Proof.
  intros Hlaunch Hnames. unfold program. rewrite Hlaunch. split.
  - rewrite <- (app_nil_r (Signal <$> names)).
    rewrite supervise_relayed by assumption. cbn [supervise fst snd].
    now rewrite app_nil_r.
  - intros code by_signal rest.
    rewrite supervise_relayed by assumption.
    now rewrite supervise_exit.
Qed.

End Supervision.

Lemma sample_launch :
  exists c out, launch (RT := Sample.node) Sample.config_port_debug = (Normal c, out).
Proof.
  destruct (launch (RT := Sample.node) Sample.config_port_debug) as [r out] eqn:Hl.
  vm_compute in Hl. injection Hl as <- <-. now eexists _, _.
Defined.

Lemma child_status_is_propagated_witness :
  exists out,
    program (RT := Sample.node) Sample.config_port_debug [ChildExit (Some 3) None]
      = (Ended 3, out, [ProcessExit 3])
    /\ program (RT := Sample.node) Sample.config_port_debug [ChildExit None (Some "SIGKILL")]
      = (Ended 0, out, [ProcessExit 0]).
Proof.
  destruct sample_launch as (c & out & Hl). exists out. split.
  - apply (child_status_is_propagated (RT := Sample.node) _ c out None [] Hl).
  - apply (child_status_is_propagated (RT := Sample.node) _ c out (Some "SIGKILL") [] Hl).
Defined.

Lemma signals_are_relayed_witness :
  exists out,
    program (RT := Sample.node) Sample.config_port_debug
      [Signal "SIGINT"; Signal "SIGTERM"; ChildExit None (Some "SIGTERM")]
    = (Ended 0, out, [ChildKill "SIGINT"; ChildKill "SIGTERM"; ProcessExit 0]).
Proof.
  destruct sample_launch as (c & out & Hl). exists out.
  apply (signals_are_relayed (RT := Sample.node) _ c out ["SIGINT"; "SIGTERM"] Hl).
  constructor; [now left|]. constructor; [now right|]. constructor.
Defined.

(** * Further properties of the script *)

(** ** How a launch can end *)

Section Outcomes.
Context `{RT : Runtime}.
Local Open Scope list_scope.

Lemma bind_uncaught {A B} (m : M A) (k : A -> M B) (p q : proc) (error : string) :
  m p = (Uncaught error, q) -> (m ≫= k) p = (Uncaught error, q).
Proof. intros Hm. unfold mbind, M_bind, bind. now rewrite Hm. Qed.

Lemma bind_exited {A B} (m : M A) (k : A -> M B) (p q : proc) (status : Z) :
  m p = (Exited status, q) -> (m ≫= k) p = (Exited status, q).
Proof. intros Hm. unfold mbind, M_bind, bind. now rewrite Hm. Qed.

(** Option parsing returns a configuration and leaves the process as it
    is, or reports and exits with status 1. *)
Lemma parseConfigArg_cases (args : list string) (p : proc) :
  (exists cfg, parseConfigArg args p = (Normal cfg, p))
  \/ (exists message,
        parseConfigArg args p =
          (Exited 1,
           {| penv := penv p;
              emitted := emitted p ++
                [ConsoleError ("[mcp-service-registry] Invalid --config JSON: "
                                 ++ message)%string] |})).
Proof.
  unfold parseConfigArg.
  destruct (negb _ && _); [|left; now eexists].
  destruct (JSON_parse _) as [message|v]; [right|left]; now eexists.
Qed.

(** Reading a property never exits and changes nothing; it throws
    exactly on [null] and [undefined]. *)
Lemma get_cases (cfg : jsval) (k : string) (p : proc) :
  if nullish cfg
  then exists error, get cfg k p = (Uncaught error, p)
  else get cfg k p = (Normal (default VUndefined (member k (members_of cfg))), p).
Proof. destruct cfg; simpl; try reflexivity; now eexists. Qed.

Lemma get_as_object (cfg : jsval) (k : string) (p : proc) :
  nullish cfg = false -> get cfg k p = get (VObj (members_of cfg)) k p.
Proof. intros Hcfg. pose proof (get_cases cfg k p) as H. now rewrite Hcfg in H. Qed.

Lemma host_as_object (cfg : jsval) (p : proc) :
  nullish cfg = false -> host cfg p = host (VObj (members_of cfg)) p.
Proof.
  intros Hcfg. unfold host, mbind, M_bind, bind. now rewrite get_as_object.
Qed.

Lemma port_as_object (cfg : jsval) (p : proc) :
  nullish cfg = false -> port cfg p = port (VObj (members_of cfg)) p.
Proof.
  intros Hcfg. unfold port, mbind, M_bind, bind. now rewrite get_as_object.
Qed.

Lemma debug_as_object (cfg : jsval) (p : proc) :
  nullish cfg = false -> debug cfg p = debug (VObj (members_of cfg)) p.
Proof.
  intros Hcfg. unfold debug, mbind, M_bind, bind. now rewrite get_as_object.
Qed.

Lemma passthrough_as_object (cfg : jsval) (k K : string) (p : proc) :
  nullish cfg = false -> passthrough cfg k K p = passthrough (VObj (members_of cfg)) k K p.
Proof.
  intros Hcfg. unfold passthrough, mbind, M_bind, bind. now rewrite get_as_object.
Qed.

Lemma host_nullish (cfg : jsval) (p : proc) :
  nullish cfg = true -> exists error, host cfg p = (Uncaught error, p).
Proof.
  intros Hcfg. pose proof (get_cases cfg "host" p) as H. rewrite Hcfg in H.
  destruct H as [error H]. exists error. now apply bind_uncaught.
Qed.

Lemma untouched_start (w : World) : untouched w (start w).
Proof. now intros key _ _. Qed.

Lemma passthrough_untouched (w : World) (ms : list (string * jsval)) (k K : string)
    (p q : proc) (u : unit) :
  K = "PERPLEXITY_API_KEY" \/ K = "PERPLEXITY_MODEL" ->
  untouched w p ->
  passthrough (VObj ms) k K p = (Normal u, q) ->
  untouched w q.
Proof.
  intros HK Hp Hrun key H1 H2.
  apply passthrough_frame in Hrun as [_ Hframe].
  rewrite Hframe by (destruct HK; congruence). now apply Hp.
Qed.

Lemma passthrough_cases (ms : list (string * jsval)) (k K : string) (p : proc) :
  (exists q, passthrough (VObj ms) k K p = (Normal tt, q))
  \/ (exists error,
        passthrough (VObj ms) k K p = (Uncaught error, p)
        /\ ~ convertible (member k ms)).
Proof.
  rewrite passthrough_object.
  destruct (present_truthy (member k ms)) as [v|] eqn:Hv; [|left; now eexists].
  destruct (ToString v) eqn:Hs; [left; now eexists|].
  right. eexists. split; [reflexivity|].
  intros Hconv. destruct (Hconv v Hv) as [s Hs']. congruence.
Qed.

(** Once option parsing has returned a configuration, the launch ends
    in one of three ways, and the events tell which: an exception
    nobody catches (the configuration is null, or one of the
    conversions of the port, the passthrough values and the host
    throws), the final guard (the four remediation lines, status 127),
    or the spawn (two log lines, then the child). *)
Lemma main_after_config (w : World) (cfg : jsval) :
  parseConfigArg (argv w) (start w) = (Normal cfg, start w) ->
  (exists error q,
        main w (start w) = (Uncaught error, q) /\ emitted q = [] /\ untouched w q
        /\ (nullish cfg = true
            \/ ToNumber (chosen_port (members_of cfg) (environ w)) = None
            \/ ~ convertible (member "perplexityApiKey" (members_of cfg))
            \/ ~ convertible (member "perplexityModel" (members_of cfg))
            \/ ToString (chosen_host (members_of cfg) (environ w)) = None))
  \/ (exists q,
        main w (start w) = (Exited 127, {| penv := penv q; emitted := remediation |})
        /\ untouched w q /\ selected w = None)
  \/ (exists h n d hs bin e q,
        nullish cfg = false
        /\ host cfg (start w) = (Normal h, start w)
        /\ port cfg (start w) = (Normal n, start w)
        /\ debug cfg (start w) = (Normal d, start w)
        /\ ToString h = Some hs
        /\ untouched w q /\ emitted q = []
        /\ env w h n d q = (Normal e, q)
        /\ selected w = Some bin
        /\ main w (start w) =
             (Normal {| child_command := bin;
                        child_args := ["-m"; "registry.service_registry_server"];
                        child_env := e;
                        child_cwd := repoRoot w |},
              {| penv := penv q;
                 emitted :=
                   [ConsoleLog ("[mcp-service-registry] Using Python: " ++ bin)%string;
                    ConsoleLog ("[mcp-service-registry] Starting ServiceRegistry at http://"
                                  ++ hs ++ ":" ++ NumberToString n ++ "/mcp")%string;
                    Spawn {| child_command := bin;
                             child_args := ["-m"; "registry.service_registry_server"];
                             child_env := e;
                             child_cwd := repoRoot w |}] |})).
Proof.
  intros Hcfg. unfold main.
  rewrite (bind_step _ _ _ _ _ Hcfg).
  destruct (nullish cfg) eqn:Hnull.
  { left. destruct (host_nullish cfg (start w) Hnull) as [error Herr].
    exists error, (start w). rewrite (bind_uncaught _ _ _ _ _ Herr).
    repeat split; auto. }
  assert (Hhost : host cfg (start w)
                  = (Normal (chosen_host (members_of cfg) (environ w)), start w)).
  { rewrite host_as_object by assumption. apply host_object. }
  rewrite (bind_step _ _ _ _ _ Hhost).
  assert (Hport : port cfg (start w) =
            match ToNumber (chosen_port (members_of cfg) (environ w)) with
            | Some n => (Normal n, start w)
            | None => TypeError (start w)
            end).
  { rewrite port_as_object by assumption. apply port_object. }
  destruct (ToNumber (chosen_port (members_of cfg) (environ w))) as [n|].
  2: { left. eexists _, (start w). rewrite (bind_uncaught _ _ _ _ _ Hport).
       repeat split; auto. }
  rewrite (bind_step _ _ _ _ _ Hport).
  assert (Hdebug : debug cfg (start w)
                   = (Normal (truthy (chosen_debug (members_of cfg) (environ w))), start w)).
  { rewrite debug_as_object by assumption. apply debug_object. }
  rewrite (bind_step _ _ _ _ _ Hdebug).
  destruct (passthrough_cases (members_of cfg) "perplexityApiKey" "PERPLEXITY_API_KEY"
              (start w)) as [[p5 H5] | (error & H5 & Hno)].
  2: { rewrite <- passthrough_as_object in H5 by assumption.
       left. exists error, (start w). rewrite (bind_uncaught _ _ _ _ _ H5).
       repeat split; auto. }
  pose proof (passthrough_untouched w _ _ _ _ _ _ (or_introl eq_refl)
                (untouched_start w) H5) as Hu5.
  pose proof (proj1 (passthrough_frame _ _ _ _ _ _ H5)) as Hout5.
  cbn [start emitted] in Hout5.
  rewrite <- passthrough_as_object in H5 by assumption.
  rewrite (bind_step _ _ _ _ _ H5).
  destruct (passthrough_cases (members_of cfg) "perplexityModel" "PERPLEXITY_MODEL" p5)
    as [[p6 H6] | (error & H6 & Hno)].
  2: { rewrite <- passthrough_as_object in H6 by assumption.
       left. exists error, p5. rewrite (bind_uncaught _ _ _ _ _ H6).
       repeat split; auto. }
  pose proof (passthrough_untouched w _ _ _ _ _ _ (or_intror eq_refl) Hu5 H6) as Hu6.
  pose proof (proj1 (passthrough_frame _ _ _ _ _ _ H6)) as Hout6.
  rewrite Hout5 in Hout6.
  rewrite <- passthrough_as_object in H6 by assumption.
  rewrite (bind_step _ _ _ _ _ H6).
  pose proof (env_spec w (chosen_host (members_of cfg) (environ w)) n
                (truthy (chosen_debug (members_of cfg) (environ w))) p6) as Henv.
  destruct (ToString (chosen_host (members_of cfg) (environ w))) as [hs|] eqn:Hhs.
  2: { left. eexists _, p6. rewrite (bind_uncaught _ _ _ _ _ Henv).
       repeat split; auto 6. }
  rewrite (bind_step _ _ _ _ _ Henv).
  assert (Hbin : PY_BIN w p6 = (Normal (selected w), p6)).
  { rewrite PY_BIN_spec, selected_spec, !Hu6 by done. reflexivity. }
  rewrite (bind_step _ _ _ _ _ Hbin).
  destruct (selected w) as [bin|] eqn:Hsel; right; [right | left].
  - exists (chosen_host (members_of cfg) (environ w)), n,
      (truthy (chosen_debug (members_of cfg) (environ w))), hs, bin.
    eexists _, p6.
    repeat split; try eassumption.
    unfold console_log, emit, mbind, M_bind, bind, mret, M_ret, ret.
    cbn [fst snd penv emitted]. now rewrite Hout6.
  - exists p6. repeat split; try assumption.
    unfold console_error, process_exit, emit, mbind, M_bind, bind, remediation.
    cbn [fst snd penv emitted]. now rewrite Hout6.
Qed.

(** Every launch ends in one of four ways, and the events tell which:
    a parse failure (one diagnostic line, status 1), an exception
    nobody catches, the final guard (the four remediation lines,
    status 127), or the spawn (two log lines, then the child). *)
Lemma main_cases (w : World) :
  (exists message,
     main w (start w) =
       (Exited 1,
        {| penv := environ w;
           emitted := [ConsoleError ("[mcp-service-registry] Invalid --config JSON: "
                                       ++ message)%string] |}))
  \/ (exists error q,
        main w (start w) = (Uncaught error, q) /\ emitted q = [] /\ untouched w q)
  \/ (exists q,
        main w (start w) = (Exited 127, {| penv := penv q; emitted := remediation |})
        /\ untouched w q /\ selected w = None)
  \/ (exists cfg h n d hs bin e q,
        parseConfigArg (argv w) (start w) = (Normal cfg, start w)
        /\ nullish cfg = false
        /\ host cfg (start w) = (Normal h, start w)
        /\ port cfg (start w) = (Normal n, start w)
        /\ debug cfg (start w) = (Normal d, start w)
        /\ ToString h = Some hs
        /\ untouched w q /\ emitted q = []
        /\ env w h n d q = (Normal e, q)
        /\ selected w = Some bin
        /\ main w (start w) =
             (Normal {| child_command := bin;
                        child_args := ["-m"; "registry.service_registry_server"];
                        child_env := e;
                        child_cwd := repoRoot w |},
              {| penv := penv q;
                 emitted :=
                   [ConsoleLog ("[mcp-service-registry] Using Python: " ++ bin)%string;
                    ConsoleLog ("[mcp-service-registry] Starting ServiceRegistry at http://"
                                  ++ hs ++ ":" ++ NumberToString n ++ "/mcp")%string;
                    Spawn {| child_command := bin;
                             child_args := ["-m"; "registry.service_registry_server"];
                             child_env := e;
                             child_cwd := repoRoot w |}] |})).
Proof.
  destruct (parseConfigArg_cases (argv w) (start w)) as [[cfg Hcfg] | [message Hfail]].
  2: { left. exists message. unfold main. now rewrite (bind_exited _ _ _ _ _ Hfail). }
  right.
  destruct (main_after_config w cfg Hcfg) as
    [(error & q & Hmain & Hout & Hq & _) | [Hguard | (h & n & d & hs & bin & e & q & H)]].
  - left. now exists error, q.
  - right. now left.
  - right. right. exists cfg, h, n, d, hs, bin, e, q. now split.
Qed.

(** The script ends with status 127 by the final guard only. *)
Lemma launch_guard (w : World) (evs : list event) :
  launch w = (Exited 127, evs) -> selected w = None /\ evs = remediation.
Proof.
  unfold launch. intros Hlaunch.
  destruct (main_cases w) as
    [[message H] | [(error & q & H & _) | [(q & H & _ & Hsel) |
     (cfg & h & n & d & hs & bin & e & q & _ & _ & _ & _ & _ & _ & _ & _ & _ & _ & H)]]];
    rewrite H in Hlaunch; cbn [fst snd emitted] in Hlaunch; try discriminate Hlaunch.
  injection Hlaunch as <-. now split.
Qed.

End Outcomes.

Section Spawned.
Context `{RT : Runtime}.
Local Open Scope list_scope.

(** What is known of a launch that spawned. *)
Lemma launch_spawned (w : World) (c : ChildProcess) (evs : list event) :
  launch w = (Normal c, evs) ->
  exists h n d hs q,
    ToString h = Some hs
    /\ untouched w q
    /\ env w h n d q = (Normal (child_env c), q)
    /\ selected w = Some (child_command c)
    /\ child_args c = ["-m"; "registry.service_registry_server"]
    /\ child_cwd c = repoRoot w
    /\ evs = [ConsoleLog ("[mcp-service-registry] Using Python: " ++ child_command c)%string;
              ConsoleLog ("[mcp-service-registry] Starting ServiceRegistry at http://"
                            ++ hs ++ ":" ++ NumberToString n ++ "/mcp")%string;
              Spawn c].
Proof.
  unfold launch. intros Hlaunch.
  destruct (main_cases w) as
    [[message H] | [(error & q & H & _) | [(q & H & _) |
     (cfg & h & n & d & hs & bin & e & q & _ & _ & _ & _ & _ & Hhs & Hq & _ & He & Hsel & H)]]];
    rewrite H in Hlaunch; cbn [fst snd emitted] in Hlaunch; try discriminate Hlaunch.
  injection Hlaunch as <- <-. exists h, n, d, hs, q. now repeat split.
Qed.

(** X1. Every launch ends in exactly one of four ways, and what it
    emitted tells which: one diagnostic line and status 1; an exception
    nobody catches, with nothing emitted; the four remediation lines
    and status 127, which happens only when no interpreter is selected;
    or two log lines followed by the spawn of the selected interpreter,
    run as the module [registry.service_registry_server] in the
    repository root.  So a child is spawned at most once, as the last
    thing a launch does, and never in a launch that fails. *)
Theorem launch_outcomes (w : World) :
  (exists message,
     launch w = (Exited 1,
                 [ConsoleError ("[mcp-service-registry] Invalid --config JSON: "
                                  ++ message)%string]))
  \/ (exists error, launch w = (Uncaught error, []))
  \/ (launch w = (Exited 127, remediation) /\ selected w = None)
  \/ (exists c line,
        launch w =
          (Normal c,
           [ConsoleLog ("[mcp-service-registry] Using Python: " ++ child_command c)%string;
            ConsoleLog line; Spawn c])
        /\ selected w = Some (child_command c)
        /\ child_args c = ["-m"; "registry.service_registry_server"]
        /\ child_cwd c = repoRoot w).
Proof.
  destruct (main_cases w) as
    [[message H] | [(error & q & H & Hout & _) | [(q & H & _ & Hsel) |
     (cfg & h & n & d & hs & bin & e & q & _ & _ & _ & _ & _ & _ & _ & _ & _ & Hsel & H)]]].
  - left. exists message. unfold launch. now rewrite H.
  - right; left. exists error. unfold launch. rewrite H. cbn [fst snd]. now rewrite Hout.
  - right; right; left. split; [|assumption]. unfold launch. now rewrite H.
  - right; right; right.
    exists {| child_command := bin;
              child_args := ["-m"; "registry.service_registry_server"];
              child_env := e;
              child_cwd := repoRoot w |}.
    eexists. unfold launch. rewrite H. cbn [fst snd emitted child_command].
    split; [reflexivity|]. now repeat split.
Qed.

(** X2. In a launch that spawns, the address printed before the spawn
    is built from the very host and port the child receives in its
    environment, and the interpreter printed is the command spawned. *)
Theorem logged_address_is_child_address (w : World) (c : ChildProcess) (evs : list event) :
  launch w = (Normal c, evs) ->
  exists h p,
    child_env c !! "SERVICE_REGISTRY_HOST" = Some h
    /\ child_env c !! "SERVICE_REGISTRY_PORT" = Some p
    /\ evs = [ConsoleLog ("[mcp-service-registry] Using Python: " ++ child_command c)%string;
              ConsoleLog ("[mcp-service-registry] Starting ServiceRegistry at http://"
                            ++ h ++ ":" ++ p ++ "/mcp")%string;
              Spawn c].
Proof.
  intros Hlaunch.
  destruct (launch_spawned w c evs Hlaunch)
    as (h & n & d & hs & q & Hhs & _ & Henv & _ & _ & _ & Hevs).
  rewrite env_spec, Hhs in Henv. injection Henv as Henv.
  exists hs, (NumberToString n). rewrite <- Henv. repeat split; [| |assumption].
  - rewrite ?lookup_insert_ne by done. now rewrite lookup_insert_eq.
  - rewrite ?lookup_insert_ne by done. now rewrite lookup_insert_eq.
Qed.

(** X3. The child inherits the launcher's environment: every variable
    other than the six the script sets reaches the child with the value
    it had when the launcher started, and a variable that was unset
    stays unset. *)
Theorem child_inherits_environment (w : World) (c : ChildProcess) (evs : list event)
    (key : string) :
  launch w = (Normal c, evs) ->
  key ∉ child_variables ->
  child_env c !! key = environ w !! key.
Proof.
  intros Hlaunch Hkey.
  destruct (launch_spawned w c evs Hlaunch)
    as (h & n & d & hs & q & Hhs & Hq & Henv & _).
  rewrite env_spec, Hhs in Henv. injection Henv as Henv. rewrite <- Henv.
  unfold child_variables in Hkey.
  repeat (apply not_elem_of_cons in Hkey as [? Hkey]).
  rewrite !lookup_insert_ne by congruence. now apply Hq.
Qed.

(** X5. The module search path of the child starts with the repository
    root: it is the root alone when the launcher has no search path of
    its own or an empty one, and the root, the path delimiter and the
    inherited value otherwise. *)
Theorem pythonpath_is_prepended (w : World) (c : ChildProcess) (evs : list event) :
  launch w = (Normal c, evs) ->
  repoRoot w <> EmptyString ->
  child_env c !! "PYTHONPATH" =
    Some match set_nonempty (environ w !! "PYTHONPATH") with
         | Some inherited => (repoRoot w ++ path_delimiter ++ inherited)%string
         | None => repoRoot w
         end.
Proof.
  intros Hlaunch Hroot.
  destruct (launch_spawned w c evs Hlaunch)
    as (h & n & d & hs & q & Hhs & Hq & Henv & _).
  rewrite env_spec, Hhs in Henv.
  set (pp := String.concat _ _) in Henv.
  injection Henv as Henv. rewrite <- Henv, lookup_insert_eq. subst pp.
  rewrite Hq by done. f_equal.
  unfold filter_truthy. cbn [List.filter].
  rewrite (str_truthy_nonempty _ Hroot), env_or_empty. unfold set_nonempty.
  destruct (environ w !! "PYTHONPATH") as [e|]; cbn [default from_option id].
  - now destruct e as [|a e].
  - reflexivity.
Qed.

(** X6. The launcher writes to its own environment nothing but the two
    passthrough variables: however the script ends, every other
    variable of [process.env], the four it sets for the child included,
    is as it was at start. *)
Theorem own_environment_is_kept (w : World) : untouched w (main w (start w)).2.
Proof.
  destruct (main_cases w) as
    [[message H] | [(error & q & H & _ & Hq) | [(q & H & Hq & _) |
     (cfg & h & n & d & hs & bin & e & q & _ & _ & _ & _ & _ & _ & Hq & _ & _ & _ & H)]]];
    rewrite H; cbn [snd]; try exact Hq.
  now intros key _ _.
Qed.

(** X16. Whatever the configuration and the environment, a child that
    is spawned receives all of host, port, debug and search path: none
    of the four is left to what the launcher inherited, and debug is
    always one of the two words true and false. *)
Theorem child_settings_are_always_set (w : World) (c : ChildProcess) (evs : list event) :
  launch w = (Normal c, evs) ->
  is_Some (child_env c !! "SERVICE_REGISTRY_HOST")
  /\ is_Some (child_env c !! "SERVICE_REGISTRY_PORT")
  /\ (child_env c !! "SERVICE_REGISTRY_DEBUG" = Some "true"
      \/ child_env c !! "SERVICE_REGISTRY_DEBUG" = Some "false")
  /\ is_Some (child_env c !! "PYTHONPATH").
Proof.
  intros Hlaunch.
  destruct (launch_spawned w c evs Hlaunch)
    as (h & n & d & hs & q & Hhs & _ & Henv & _).
  rewrite env_spec, Hhs in Henv.
  set (pp := String.concat _ _) in Henv.
  injection Henv as Henv. rewrite <- Henv.
  repeat split.
  - rewrite ?lookup_insert_ne by done. rewrite lookup_insert_eq. eauto.
  - rewrite ?lookup_insert_ne by done. rewrite lookup_insert_eq. eauto.
  - rewrite ?lookup_insert_ne by done. rewrite lookup_insert_eq.
    destruct d; [now left | now right].
  - rewrite lookup_insert_eq. eauto.
Qed.

End Spawned.

(** ** A port that is not a number *)

Section Port.
Context `{RT : Runtime}.
Local Open Scope list_scope.

(** C4, amended. The port is coerced to a number and the result is not
    checked.  For a configuration that is not null: when the coercion
    throws, the launcher ends with that TypeError, caught by nobody,
    having emitted nothing; when it yields NaN, the launcher reports
    nothing about the port and does not exit on its account.  It then
    ends in one of three ways only: an exception of a later
    conversion, nothing emitted; the final guard with status 127, when
    no interpreter is selected; or the spawn, the child's port being
    the string NaN.  When the host and the two passthrough values can
    be converted to strings the first is excluded: the child is
    spawned if an interpreter is selected, and the final guard ends
    the launcher if none is. *)
Theorem non_numeric_port_is_passed_on (w : World) (cfg : jsval) :
  parseConfigArg (argv w) (start w) = (Normal cfg, start w) ->
  nullish cfg = false ->
  (ToNumber (chosen_port (members_of cfg) (environ w)) = None ->
   launch w = (Uncaught "TypeError: Cannot convert object to primitive value", []))
  /\ (ToNumber (chosen_port (members_of cfg) (environ w)) = Some NaN ->
      ((exists error, launch w = (Uncaught error, []))
       \/ (launch w = (Exited 127, remediation) /\ selected w = None)
       \/ (exists c hs,
             launch w =
               (Normal c,
                [ConsoleLog ("[mcp-service-registry] Using Python: "
                               ++ child_command c)%string;
                 ConsoleLog ("[mcp-service-registry] Starting ServiceRegistry at http://"
                               ++ hs ++ ":NaN/mcp")%string;
                 Spawn c])
             /\ selected w = Some (child_command c)
             /\ child_env c !! "SERVICE_REGISTRY_PORT" = Some "NaN"))
      /\ (forall hs,
            ToString (chosen_host (members_of cfg) (environ w)) = Some hs ->
            convertible (member "perplexityApiKey" (members_of cfg)) ->
            convertible (member "perplexityModel" (members_of cfg)) ->
            match selected w with
            | Some bin =>
                exists c,
                  launch w =
                    (Normal c,
                     [ConsoleLog ("[mcp-service-registry] Using Python: " ++ bin)%string;
                      ConsoleLog
                        ("[mcp-service-registry] Starting ServiceRegistry at http://"
                           ++ hs ++ ":NaN/mcp")%string;
                      Spawn c])
                  /\ child_command c = bin
                  /\ child_env c !! "SERVICE_REGISTRY_PORT" = Some "NaN"
            | None => launch w = (Exited 127, remediation)
            end)).
Proof.
  intros Hcfg Hnull.
  assert (Hhost : host cfg (start w)
                  = (Normal (chosen_host (members_of cfg) (environ w)), start w)).
  { rewrite host_as_object by assumption. apply host_object. }
  assert (Hport : port cfg (start w) =
            match ToNumber (chosen_port (members_of cfg) (environ w)) with
            | Some n => (Normal n, start w)
            | None => TypeError (start w)
            end).
  { rewrite port_as_object by assumption. apply port_object. }
  split.
  { intros Hthrow. rewrite Hthrow in Hport. unfold launch, main.
    rewrite (bind_step _ _ _ _ _ Hcfg), (bind_step _ _ _ _ _ Hhost).
    now rewrite (bind_uncaught _ _ _ _ _ Hport). }
  intros Hnan. rewrite Hnan in Hport.
  assert (Hchild : forall h n d hs bin e q,
    host cfg (start w) = (Normal h, start w) ->
    port cfg (start w) = (Normal n, start w) ->
    ToString h = Some hs ->
    env w h n d q = (Normal e, q) ->
    launch w =
      (Normal {| child_command := bin;
                 child_args := ["-m"; "registry.service_registry_server"];
                 child_env := e;
                 child_cwd := repoRoot w |},
       [ConsoleLog ("[mcp-service-registry] Using Python: " ++ bin)%string;
        ConsoleLog ("[mcp-service-registry] Starting ServiceRegistry at http://"
                      ++ hs ++ ":" ++ NumberToString n ++ "/mcp")%string;
        Spawn {| child_command := bin;
                 child_args := ["-m"; "registry.service_registry_server"];
                 child_env := e;
                 child_cwd := repoRoot w |}]) ->
    ToString (chosen_host (members_of cfg) (environ w)) = Some hs
    /\ launch w =
         (Normal {| child_command := bin;
                    child_args := ["-m"; "registry.service_registry_server"];
                    child_env := e;
                    child_cwd := repoRoot w |},
          [ConsoleLog ("[mcp-service-registry] Using Python: " ++ bin)%string;
           ConsoleLog ("[mcp-service-registry] Starting ServiceRegistry at http://"
                         ++ hs ++ ":NaN/mcp")%string;
           Spawn {| child_command := bin;
                    child_args := ["-m"; "registry.service_registry_server"];
                    child_env := e;
                    child_cwd := repoRoot w |}])
    /\ e !! "SERVICE_REGISTRY_PORT" = Some "NaN").
  { intros h n d hs bin e q Hh Hn Hhs He Hlaunch.
    rewrite Hhost in Hh. injection Hh as <-.
    rewrite Hport in Hn. injection Hn as <-.
    rewrite NumberToString_NaN in Hlaunch.
    split; [assumption|]. split; [exact Hlaunch|].
    rewrite env_spec, Hhs in He. injection He as <-.
    rewrite ?lookup_insert_ne by done. rewrite lookup_insert_eq.
    now rewrite NumberToString_NaN. }
  assert (Hlaunch : forall r q, main w (start w) = (r, q) -> launch w = (r, emitted q)).
  { intros r q Hmain. unfold launch. now rewrite Hmain. }
  split.
  - destruct (main_after_config w cfg Hcfg) as
      [(error & q & Hmain & Hout & _) | [(q & Hmain & _ & Hsel) |
       (h & n & d & hs & bin & e & q & _ & Hh & Hn & _ & Hhs & _ & _ & He & Hsel & Hmain)]];
      apply Hlaunch in Hmain; cbn [emitted] in Hmain.
    + left. exists error. now rewrite Hmain, Hout.
    + right. left. now split.
    + right. right.
      destruct (Hchild h n d hs bin e q Hh Hn Hhs He Hmain) as (_ & Hspawn & He').
      eexists _, hs. split; [exact Hspawn|]. now split.
  - intros hs Hhs Hkey Hmodel.
    destruct (main_after_config w cfg Hcfg) as
      [(error & q & _ & _ & _ & [Hc | [Hc | [Hc | [Hc | Hc]]]]) | [(q & Hmain & _ & Hsel) |
       (h & n & d & hs' & bin & e & q & _ & Hh & Hn & _ & Hhs' & _ & _ & He & Hsel & Hmain)]];
      try congruence; try contradiction.
    + rewrite Hsel. now apply Hlaunch in Hmain.
    + rewrite Hsel. apply Hlaunch in Hmain. cbn [emitted] in Hmain.
      destruct (Hchild h n d hs' bin e q Hh Hn Hhs' He Hmain) as (Hsame & Hspawn & He').
      assert (hs' = hs) as -> by congruence.
      eexists. split; [exact Hspawn|]. now split.
Qed.

End Port.

(** The port variable is [abc]: the child is spawned with port NaN.
    The port field is an object that cannot be converted: the launcher
    ends with the TypeError. *)
Lemma non_numeric_port_is_passed_on_witness :
  (exists c,
     launch (RT := Sample.node) Sample.port_variable_abc =
       (Normal c,
        [ConsoleLog "[mcp-service-registry] Using Python: /usr/bin/python3";
         ConsoleLog "[mcp-service-registry] Starting ServiceRegistry at http://127.0.0.1:NaN/mcp";
         Spawn c])
     /\ child_command c = "/usr/bin/python3"
     /\ child_env c !! "SERVICE_REGISTRY_PORT" = Some "NaN")
  /\ launch (RT := Texts.node) Texts.config_port_object =
       (Uncaught "TypeError: Cannot convert object to primitive value", []).
Proof.
  split.
  - exact (proj2 (proj2 (non_numeric_port_is_passed_on (RT := Sample.node)
                           Sample.port_variable_abc (VObj []) eq_refl eq_refl) eq_refl)
             "127.0.0.1" eq_refl
             ltac:(intros x Hx; discriminate Hx) ltac:(intros x Hx; discriminate Hx)).
  - exact (proj1 (non_numeric_port_is_passed_on (RT := Texts.node)
                    Texts.config_port_object
                    (VObj [("port", VObj [("toString", VNum (Some 1))])])
                    eq_refl eq_refl) eq_refl).
Defined.

Section Passthrough.
Context `{RT : Runtime}.
Local Open Scope list_scope.

(** The steps of a launch that spawned, read backwards. *)
Lemma main_inversion (w : World) (cfg : jsval) (c : ChildProcess) (q : proc) :
  parseConfigArg (argv w) (start w) = (Normal cfg, start w) ->
  main w (start w) = (Normal c, q) ->
  exists h n d p5 p6,
    passthrough cfg "perplexityApiKey" "PERPLEXITY_API_KEY" (start w) = (Normal tt, p5)
    /\ passthrough cfg "perplexityModel" "PERPLEXITY_MODEL" p5 = (Normal tt, p6)
    /\ env w h n d p6 = (Normal (child_env c), p6).
Proof.
  intros Hcfg Hmain. unfold main in Hmain.
  apply bind_normal in Hmain as (cfg' & p1 & H1 & Hmain).
  rewrite Hcfg in H1. injection H1 as <- <-.
  apply bind_normal in Hmain as (h & p2 & H2 & Hmain).
  apply bind_normal in Hmain as (n & p3 & H3 & Hmain).
  apply bind_normal in Hmain as (d & p4 & H4 & Hmain).
  apply bind_normal in Hmain as ([] & p5 & H5 & Hmain).
  apply bind_normal in Hmain as ([] & p6 & H6 & Hmain).
  apply bind_normal in Hmain as (e & p7 & H7 & Hmain).
  apply bind_normal in Hmain as (b & p8 & H8 & Hmain).
  destruct (nullish cfg) eqn:Hnull.
  { destruct (host_nullish cfg (start w) Hnull) as [error Herr]. congruence. }
  rewrite host_as_object, host_object in H2 by assumption. injection H2 as _ <-.
  rewrite port_as_object, port_object in H3 by assumption.
  destruct (ToNumber _); [|discriminate H3]. injection H3 as _ <-.
  rewrite debug_as_object, debug_object in H4 by assumption. injection H4 as _ <-.
  pose proof H7 as H7'. rewrite env_spec in H7'.
  destruct (ToString h); [|discriminate H7']. injection H7' as _ <-.
  destruct b as [bin|].
  - unfold console_log, emit, mbind, M_bind, bind, mret, M_ret, ret in Hmain.
    injection Hmain as <- _. now exists h, n, d, p5, p6.
  - unfold console_error, process_exit, emit, mbind, M_bind, bind in Hmain.
    discriminate Hmain.
Qed.

(** X4. The two passthrough fields.  When the configuration object has
    a truthy [perplexityApiKey], the child receives its string form as
    [PERPLEXITY_API_KEY], whatever the launcher had inherited under
    that name; when the field is absent or falsy, the child receives
    the inherited value, or none.  The same holds for
    [perplexityModel] and [PERPLEXITY_MODEL]. *)
Theorem passthrough_reaches_child (w : World) (pre post : list string) (text : string)
    (ms : list (string * jsval)) (c : ChildProcess) (evs : list event) :
  argv w = pre ++ "--config" :: text :: post ->
  "--config" ∉ pre ->
  JSON_parse text = inr (VObj ms) ->
  launch w = (Normal c, evs) ->
  child_env c !! "PERPLEXITY_API_KEY" =
    match present_truthy (member "perplexityApiKey" ms) with
    | Some v => ToString v
    | None => environ w !! "PERPLEXITY_API_KEY"
    end
  /\ child_env c !! "PERPLEXITY_MODEL" =
    match present_truthy (member "perplexityModel" ms) with
    | Some v => ToString v
    | None => environ w !! "PERPLEXITY_MODEL"
    end.
Proof.
  intros Hargv Hpre Hparse Hlaunch.
  assert (Htext : text <> EmptyString).
  { intros ->. destruct JSON_parse_empty as [message Hempty]. congruence. }
  assert (Hcfg : parseConfigArg (argv w) (start w) = (Normal (VObj ms), start w)).
  { rewrite Hargv, parseConfigArg_first by assumption. simpl.
    now rewrite str_truthy_nonempty, Hparse. }
  unfold launch in Hlaunch.
  destruct (main w (start w)) as [r q] eqn:Hmain. injection Hlaunch as -> _.
  destruct (main_inversion w _ c q Hcfg Hmain) as (h & n & d & p5 & p6 & H5 & H6 & Henv).
  rewrite env_spec in Henv. destruct (ToString h) as [hs|]; [|discriminate Henv].
  set (pp := String.concat _ _) in Henv. injection Henv as Henv. rewrite <- Henv.
  rewrite !lookup_insert_ne by done.
  rewrite passthrough_object in H5. rewrite passthrough_object in H6.
  destruct (present_truthy (member "perplexityApiKey" ms)) as [v1|];
    destruct (present_truthy (member "perplexityModel" ms)) as [v2|].
  - destruct (ToString v1) as [s1|]; [|discriminate H5]. injection H5 as <-.
    destruct (ToString v2) as [s2|]; [|discriminate H6]. injection H6 as <-.
    cbn [penv]. split; repeat first [rewrite lookup_insert_eq | rewrite lookup_insert_ne by done]; reflexivity.
  - destruct (ToString v1) as [s1|]; [|discriminate H5]. injection H5 as <-.
    injection H6 as <-. cbn [penv start].
    split; repeat first [rewrite lookup_insert_eq | rewrite lookup_insert_ne by done]; reflexivity.
  - injection H5 as <-. destruct (ToString v2) as [s2|]; [|discriminate H6].
    injection H6 as <-. cbn [penv start].
    split; repeat first [rewrite lookup_insert_eq | rewrite lookup_insert_ne by done]; reflexivity.
  - injection H5 as <-. injection H6 as <-. now split.
Qed.

End Passthrough.

(** ** The search the script runs *)

Section Search.
Context `{RT : Runtime}.
Local Open Scope list_scope.

(** The first hit of a search splits the list: nothing before it is a
    hit. *)
Lemma find_first {A} (f : A -> bool) (l : list A) (x : A) :
  List.find f l = Some x ->
  exists before after,
    l = before ++ x :: after /\ f x = true /\ Forall (fun y => f y = false) before.
Proof.
  induction l as [|y l IH]; [discriminate|]. cbn [List.find].
  destruct (f y) eqn:Hy.
  - intros [= ->]. exists [], l. now repeat split.
  - intros Hfind. destruct (IH Hfind) as (before & after & -> & Hx & Hbefore).
    exists (y :: before), after. repeat split; [assumption|]. now constructor.
Qed.

Lemma find_nothing {A} (f : A -> bool) (l : list A) :
  List.find f l = None <-> Forall (fun y => f y = false) l.
Proof.
  induction l as [|y l IH]; cbn [List.find].
  - split; [constructor | reflexivity].
  - destruct (f y) eqn:Hy.
    + split; [discriminate|]. intros H. inversion H; congruence.
    + rewrite IH. split; [now constructor | intros H; now inversion H].
Qed.

Lemma isExec_iff (w : World) (p : string) :
  isExec w (Some p) = true <->
  p <> EmptyString /\ exists st, fs w !! p = Some st /\ st_type st = Regular.
Proof.
  unfold isExec, existsSync, statSync, Stats_isFile. split.
  - intros H. destruct p as [|a p]; [discriminate H|]. split; [discriminate|].
    destruct (fs w !! String a p) as [st|]; [|discriminate H].
    exists st. split; [reflexivity|]. cbn in H. now destruct (st_type st).
  - intros (Hp & st & -> & Hst). rewrite Hst. now destruct p.
Qed.

(** The paths tried hold no empty path and end with the three fixed
    locations; the two binaries of a virtual environment come first,
    [python] before [python3]. *)
Lemma tries_shape (venv : option string) :
  tries venv =
    filter_truthy
      match set_nonempty venv with
      | Some v => [path_join [v; "bin"; "python"]; path_join [v; "bin"; "python3"]]
      | None => []
      end
    ++ ["/opt/homebrew/bin/python3"; "/usr/local/bin/python3"; "/usr/bin/python3"].
Proof.
  unfold tries, set_nonempty. destruct venv as [v|]; [|reflexivity].
  cbn [optional truthy default from_option id].
  destruct (str_truthy v); [|reflexivity].
  unfold filter_truthy. cbn [omap list_omap id].
  cbn [List.filter app str_truthy].
  destruct (str_truthy (path_join [v; "bin"; "python"]));
    destruct (str_truthy (path_join [v; "bin"; "python3"])); reflexivity.
Qed.

(** X7. Without an override (the variable unset or empty) the script
    selects the first of the paths it tries that exists as a regular
    file: the selected path is one of them, something is there and it
    is a regular file, and none of the paths tried before it is one.
    A directory or a missing path is never selected this way; whether
    the file may be executed plays no part. *)
Theorem selection_is_first_regular_file (w : World) (p : string) :
  set_nonempty (environ w !! "PYTHON_BIN") = None ->
  selected w = Some p ->
  exists before after,
    tries (environ w !! "VIRTUAL_ENV") = before ++ p :: after
    /\ p <> EmptyString
    /\ (exists st, fs w !! p = Some st /\ st_type st = Regular)
    /\ Forall (fun c => forall st, fs w !! c = Some st -> st_type st <> Regular) before.
Proof.
  intros Hnone Hsel. rewrite selected_spec, Hnone in Hsel.
  apply find_first in Hsel as (before & after & Htries & Hp & Hbefore).
  exists before, after. apply isExec_iff in Hp as [Hne Hst].
  repeat split; try assumption.
  assert (Hin : Forall (fun c => c ∈ tries (environ w !! "VIRTUAL_ENV")) before).
  { rewrite Htries. apply Forall_forall. intros c Hc. apply elem_of_app. now left. }
  assert (Hnonempty : forall c, c ∈ tries (environ w !! "VIRTUAL_ENV") -> c <> EmptyString).
  { intros c Hc ->. unfold tries, filter_truthy in Hc.
    apply list_elem_of_In, List.filter_In in Hc as [_ Hc]. discriminate Hc. }
  rewrite Forall_forall in Hbefore, Hin |- *. intros c Hc st' Hst' Hreg.
  assert (Hexec : isExec w (Some c) = true).
  { apply isExec_iff. split; [apply Hnonempty, Hin, Hc | now exists st']. }
  rewrite (Hbefore c Hc) in Hexec. discriminate Hexec.
Qed.

(** X8. The script selects nothing exactly when the override is unset
    or empty and none of the paths it tries exists as a regular file.
    This is the only situation in which the script itself ends with
    status 127, by the final guard and after the four remediation
    lines.  A launcher that ends with status 127 has either done that,
    without spawning anything, or has spawned a child and passed on
    the status 127 the child itself exited with. *)
Theorem nothing_selected_iff (w : World) :
  (selected w = None <->
   set_nonempty (environ w !! "PYTHON_BIN") = None
   /\ Forall (fun c => forall st, fs w !! c = Some st -> st_type st <> Regular)
        (tries (environ w !! "VIRTUAL_ENV")))
  /\ (forall evs, launch w = (Exited 127, evs) -> selected w = None /\ evs = remediation)
  /\ (forall evs out acts,
        program w evs = (Ended 127, out, acts) ->
        (selected w = None /\ launch w = (Exited 127, remediation)
         /\ out = remediation /\ acts = [])
        \/ (exists c by_signal,
              launch w = (Normal c, out) /\ ChildExit (Some 127) by_signal ∈ evs)).
Proof.
  split; [|split].
  - rewrite selected_spec.
    destruct (set_nonempty (environ w !! "PYTHON_BIN")) as [b|]; [split; [discriminate|]|].
    { now intros [H _]. }
    unfold find_isExec. rewrite find_nothing, !Forall_forall. split.
    + intros H. split; [reflexivity|]. intros c Hc st Hst Hreg.
      assert (Hexec : isExec w (Some c) = true).
      { apply isExec_iff. split; [|now exists st].
        intros ->. unfold tries, filter_truthy in Hc.
        apply list_elem_of_In, List.filter_In in Hc as [_ Hc]. discriminate Hc. }
      rewrite (H c Hc) in Hexec. discriminate Hexec.
    + intros [_ H] c Hc. destruct (isExec w (Some c)) eqn:Hexec; [|reflexivity].
      apply isExec_iff in Hexec as (_ & st & Hst & Hreg). now destruct (H c Hc st Hst).
  - apply launch_guard.
  - intros evs out acts. unfold program.
    destruct (launch w) as [[c | status | error] out'] eqn:Hlaunch.
    + destruct (supervise Supervising evs) as [st acts'] eqn:Hloop. cbn [fst snd].
      intros [= -> <- <-].
      destruct (supervise_ended _ _ _ Hloop) as (code & by_signal & Hin & Hcode).
      right. exists c, by_signal. split; [reflexivity|].
      destruct code as [status|]; cbn [default from_option id] in Hcode; [|discriminate Hcode].
      now subst status.
    + intros [= -> <- <-]. destruct (launch_guard _ _ Hlaunch) as [Hsel ->].
      left. now repeat split.
    + discriminate.
Qed.

(** X9. The function the script defines and never calls agrees with
    the resolution it runs exactly when the override is unset or empty
    or names an existing regular file; with any other override the two
    differ, the unused function probing the override and the script
    taking it as it is. *)
Theorem resolvePython_agrees_iff (w : World) :
  resolvePython w (start w) = (Normal (selected w), start w) <->
  set_nonempty (environ w !! "PYTHON_BIN") = None
  \/ isExec w (environ w !! "PYTHON_BIN") = true.
Proof.
  rewrite resolvePython_spec, selected_spec, find_isExec_tries. cbn [start penv].
  unfold find_isExec, set_nonempty.
  destruct (environ w !! "PYTHON_BIN") as [b|]; cbn [option_list option_rect app].
  - destruct (str_truthy b) eqn:Hb; cbn [option_list option_rect app List.find].
    + destruct (isExec w (Some b)) eqn:Hexec.
      * split; [now right | reflexivity].
      * split; [|intros [H|H]; discriminate H].
        intros [= Hfind]. apply List.find_some in Hfind as [_ Hfind].
        change (isExec w (Some b) = true) in Hfind. congruence.
    + split; [now left | reflexivity].
  - split; [now left | reflexivity].
Qed.

End Search.

(** ** Configurations of any shape *)

Section Shapes.
Context `{RT : Runtime}.
Local Open Scope list_scope.

Lemma parseConfigArg_value (w : World) (pre post : list string) (text : string)
    (v : jsval) (p : proc) :
  argv w = pre ++ "--config" :: text :: post ->
  "--config" ∉ pre ->
  JSON_parse text = inr v ->
  parseConfigArg (argv w) p = (Normal v, p).
Proof.
  intros Hargv Hpre Hparse.
  assert (Htext : text <> EmptyString).
  { intros ->. destruct JSON_parse_empty as [message Hempty]. congruence. }
  rewrite Hargv, parseConfigArg_first by assumption. simpl.
  now rewrite str_truthy_nonempty, Hparse.
Qed.

(** X10. A configuration that is valid JSON and neither an object nor
    null (a number, a string, a boolean, an array) is accepted without
    a word and has no effect: the launch is the one of the same
    invocation without the flag. *)
Theorem non_object_config_is_ignored (w : World) (pre post : list string)
    (text : string) (v : jsval) :
  argv w = pre ++ "--config" :: text :: post ->
  "--config" ∉ pre ->
  JSON_parse text = inr v ->
  nullish v = false ->
  is_object v = false ->
  launch w = launch (with_argv pre w).
Proof.
  intros Hargv Hpre Hparse Hnull Hobj.
  pose proof (parseConfigArg_value w pre post text v (start w) Hargv Hpre Hparse) as Hv.
  pose proof (parseConfigArg_absent pre (start w) Hpre) as Hnone.
  unfold launch, main.
  rewrite (bind_step _ _ _ _ _ Hv).
  change (argv (with_argv pre w)) with pre.
  change (start (with_argv pre w)) with (start w).
  rewrite (bind_step _ _ _ _ _ Hnone).
  destruct v; try discriminate; reflexivity.
Qed.


(** X12. Only the first [--config] and the argument after it count:
    whatever follows them on the command line, further [--config]
    flags included, changes nothing of the launch. *)
Theorem later_arguments_are_ignored (w : World) (pre post : list string) (text : string) :
  argv w = pre ++ "--config" :: text :: post ->
  "--config" ∉ pre ->
  launch w = launch (with_argv (pre ++ ["--config"; text]) w).
Proof.
  intros Hargv Hpre. unfold launch, main, mbind, M_bind, bind.
  change (argv (with_argv (pre ++ ["--config"; text]) w)) with (pre ++ ["--config"; text]).
  change (start (with_argv (pre ++ ["--config"; text]) w)) with (start w).
  rewrite Hargv, !parseConfigArg_first by assumption. reflexivity.
Qed.

(** X15. A debug field that is present and not null decides alone, by
    its truthiness, whatever its type: the debug variable is not
    consulted, and any non-empty string, the string [false] included,
    turns debug on for the child. *)
Theorem debug_field_decides_by_truthiness (w : World) (pre post : list string)
    (text : string) (ms : list (string * jsval)) (v : jsval)
    (c : ChildProcess) (evs : list event) :
  argv w = pre ++ "--config" :: text :: post ->
  "--config" ∉ pre ->
  JSON_parse text = inr (VObj ms) ->
  member "debug" ms = Some v ->
  nullish v = false ->
  launch w = (Normal c, evs) ->
  child_env c !! "SERVICE_REGISTRY_DEBUG" = Some (bool_string (truthy v))
  /\ (forall s, v = VStr s -> s <> EmptyString ->
                child_env c !! "SERVICE_REGISTRY_DEBUG" = Some "true").
Proof.
  intros Hargv Hpre Hparse Hv Hnull Hlaunch.
  pose proof (parseConfigArg_value w pre post text _ (start w) Hargv Hpre Hparse) as Hcfg.
  unfold launch in Hlaunch.
  destruct (main w (start w)) as [r q] eqn:Hmain. injection Hlaunch as -> _.
  destruct (spawned_child_settings w ms c q Hcfg Hmain) as (_ & _ & Hdebug).
  assert (Hchosen : chosen_debug ms (environ w) = v).
  { unfold chosen_debug, present_not_null. now rewrite Hv, Hnull. }
  rewrite Hchosen in Hdebug. split; [assumption|].
  intros s -> Hs. rewrite Hdebug. cbn [truthy]. now rewrite str_truthy_nonempty.
Qed.

End Shapes.

(** ** The event loop on any sequence of events *)

Section EventLoop.
Context `{RT : Runtime}.
Local Open Scope list_scope.

(** X13. On any sequence of events after the spawn, the launcher lives
    through every leading signal that is SIGINT or SIGTERM, which it
    relays to the child once, under its own name and in order, and
    through every leading signal without a listener whose default
    action does not end the process, on which it does nothing.  It
    stops at the first event that is anything else: the exit of the
    child (it then exits with the child's code, or 0), an error of the
    child (nobody listens: it crashes), or a signal without a listener
    whose default action ends the process (it is not relayed).
    Nothing after that event has any effect, and the listeners never
    write anything. *)
Theorem supervise_relays_a_prefix (evs : list os_event) :
  exists names rest,
    evs = (Signal <$> names) ++ rest
    /\ Forall (fun name => relayed name \/ signal_default name = Survives) names
    /\ match rest with
       | Signal name :: _ => ~ relayed name /\ signal_default name = Ends
       | _ => True
       end
    /\ supervise Supervising evs =
         ((stop_at rest).1,
          (ChildKill <$> List.filter is_relayed names) ++ (stop_at rest).2).
Proof.
  induction evs as [|e evs (names & rest & Hevs & Hnames & Hrest & IH)].
  - exists [], []. now repeat split.
  - destruct e as [name | code by_signal | message].
    + pose proof (react_signal name) as Hreact.
      pose proof (is_relayed_spec name) as Hspec.
      destruct (is_relayed name) eqn:Hname; [|destruct (signal_default name) eqn:Hdefault].
      * exists (name :: names), rest. rewrite Hevs.
        repeat split; auto.
        { constructor; [left; now apply Hspec | assumption]. }
        cbn [fmap list_fmap app supervise List.filter]. rewrite Hreact, Hname.
        cbn [fst snd fmap list_fmap app]. rewrite <- Hevs, IH. reflexivity.
      * exists [], (Signal name :: evs). repeat split; auto.
        { intros Hrel. apply Hspec in Hrel. discriminate Hrel. }
        cbn [fmap list_fmap app supervise stop_at List.filter]. rewrite Hreact.
        cbn [fst snd]. now destruct evs.
      * exists (name :: names), rest. rewrite Hevs.
        repeat split; auto.
        cbn [fmap list_fmap app supervise List.filter]. rewrite Hreact, Hname.
        cbn [fst snd app]. rewrite <- Hevs, IH. reflexivity.
    + exists [], (ChildExit code by_signal :: evs). repeat split; auto.
      cbn [fmap list_fmap app stop_at fst snd List.filter]. apply supervise_exit.
    + exists [], (ChildError message :: evs). repeat split; auto.
      cbn [fmap list_fmap app supervise stop_at react fst snd List.filter]. now destruct evs.
Qed.

End EventLoop.

(** ** The launcher behind its wrapper *)

Section Wrapped.
Context `{RT : Runtime}.
Local Open Scope list_scope.


End Wrapped.

(** ** The further properties at work *)

Lemma logged_address_is_child_address_witness :
  exists c evs,
    launch (RT := Sample.node) Sample.config_port_debug = (Normal c, evs)
    /\ exists h p,
         child_env c !! "SERVICE_REGISTRY_HOST" = Some h
         /\ child_env c !! "SERVICE_REGISTRY_PORT" = Some p
         /\ evs = [ConsoleLog ("[mcp-service-registry] Using Python: "
                                 ++ child_command c)%string;
                   ConsoleLog ("[mcp-service-registry] Starting ServiceRegistry at http://"
                                 ++ h ++ ":" ++ p ++ "/mcp")%string;
                   Spawn c].
Proof.
  destruct (launch (RT := Sample.node) Sample.config_port_debug) as [r evs] eqn:Hl.
  pose proof Hl as Hl'. vm_compute in Hl'. injection Hl' as <- <-.
  eexists _, _. split; [reflexivity|].
  exact (logged_address_is_child_address (RT := Sample.node) _ _ _ Hl).
Defined.

Lemma child_inherits_environment_witness :
  exists c evs,
    launch (RT := Sample.node) Texts.with_pythonpath = (Normal c, evs)
    /\ child_env c !! "HOME" = Some "/home/u"
    /\ child_env c !! "VIRTUAL_ENV" = None.
Proof.
  destruct (launch (RT := Sample.node) Texts.with_pythonpath) as [r evs] eqn:Hl.
  pose proof Hl as Hl'. vm_compute in Hl'. injection Hl' as <- <-.
  eexists _, _. split; [reflexivity|]. split.
  - apply (child_inherits_environment (RT := Sample.node) Texts.with_pythonpath _ _ "HOME" Hl).
    unfold child_variables. repeat (apply not_elem_of_cons; split; [discriminate|]).
    apply not_elem_of_nil.
  - apply (child_inherits_environment (RT := Sample.node) Texts.with_pythonpath _ _
             "VIRTUAL_ENV" Hl).
    unfold child_variables. repeat (apply not_elem_of_cons; split; [discriminate|]).
    apply not_elem_of_nil.
Defined.

Lemma passthrough_reaches_child_witness :
  exists c evs,
    launch (RT := Texts.node) Texts.config_passthrough = (Normal c, evs)
    /\ child_env c !! "PERPLEXITY_API_KEY" = Some "k-1"
    /\ child_env c !! "PERPLEXITY_MODEL" = Some "m-0".
Proof.
  destruct (launch (RT := Texts.node) Texts.config_passthrough) as [r evs] eqn:Hl.
  pose proof Hl as Hl'. vm_compute in Hl'. injection Hl' as <- <-.
  eexists _, _. split; [reflexivity|].
  exact (passthrough_reaches_child (RT := Texts.node) Texts.config_passthrough
           ["/usr/local/bin/node"; "/repo/runner/bin/run.js"] []
           Texts.json_passthrough [("perplexityApiKey", VStr "k-1")] _ _
           eq_refl sample_args_without_flag eq_refl Hl).
Defined.

Lemma pythonpath_is_prepended_witness :
  exists c evs,
    launch (RT := Sample.node) Texts.with_pythonpath = (Normal c, evs)
    /\ child_env c !! "PYTHONPATH" = Some "/repo:/lib/py".
Proof.
  destruct (launch (RT := Sample.node) Texts.with_pythonpath) as [r evs] eqn:Hl.
  pose proof Hl as Hl'. vm_compute in Hl'. injection Hl' as <- <-.
  eexists _, _. split; [reflexivity|].
  apply (pythonpath_is_prepended (RT := Sample.node) Texts.with_pythonpath _ _ Hl).
  discriminate.
Defined.

Lemma selection_is_first_regular_file_witness :
  exists before after,
    tries (RT := Sample.node) (Some "/venv") = (before ++ "/venv/bin/python3" :: after)%list
    /\ "/venv/bin/python3" <> EmptyString
    /\ (exists st, fs Texts.venv_directory !! "/venv/bin/python3" = Some st
                   /\ st_type st = Regular)
    /\ Forall (fun c => forall st, fs Texts.venv_directory !! c = Some st ->
                                   st_type st <> Regular) before.
Proof.
  exact (selection_is_first_regular_file (RT := Sample.node) Texts.venv_directory
           "/venv/bin/python3" eq_refl eq_refl).
Defined.

Lemma non_object_config_is_ignored_witness :
  launch (RT := Texts.node) Texts.config_number
  = launch (RT := Texts.node) (Sample.world [] ∅ Sample.system_python).
Proof.
  exact (non_object_config_is_ignored (RT := Texts.node) Texts.config_number
           ["/usr/local/bin/node"; "/repo/runner/bin/run.js"] [] "5" (VNum (Some 5))
           eq_refl sample_args_without_flag eq_refl eq_refl eq_refl).
Defined.


Lemma later_arguments_are_ignored_witness :
  launch (RT := Sample.node) Texts.config_twice
  = launch (RT := Sample.node) (Sample.world ["--config"; "{}"] ∅ Sample.system_python).
Proof.
  exact (later_arguments_are_ignored (RT := Sample.node) Texts.config_twice
           ["/usr/local/bin/node"; "/repo/runner/bin/run.js"] ["--config"; "["] "{}"
           eq_refl sample_args_without_flag).
Defined.

Lemma debug_field_decides_by_truthiness_witness :
  exists c evs,
    launch (RT := Texts.node) Texts.config_debug_string = (Normal c, evs)
    /\ child_env c !! "SERVICE_REGISTRY_DEBUG" = Some "true".
Proof.
  destruct (launch (RT := Texts.node) Texts.config_debug_string) as [r evs] eqn:Hl.
  pose proof Hl as Hl'. vm_compute in Hl'. injection Hl' as <- <-.
  eexists _, _. split; [reflexivity|].
  exact (proj1
           (debug_field_decides_by_truthiness (RT := Texts.node) Texts.config_debug_string
              ["/usr/local/bin/node"; "/repo/runner/bin/run.js"] []
              Texts.json_debug_string [("debug", VStr "false")] (VStr "false") _ _
              eq_refl sample_args_without_flag eq_refl eq_refl eq_refl Hl)).
Defined.


Lemma child_settings_are_always_set_witness :
  exists c evs,
    launch (RT := Sample.node) Texts.with_pythonpath = (Normal c, evs)
    /\ is_Some (child_env c !! "SERVICE_REGISTRY_HOST")
    /\ is_Some (child_env c !! "SERVICE_REGISTRY_PORT")
    /\ (child_env c !! "SERVICE_REGISTRY_DEBUG" = Some "true"
        \/ child_env c !! "SERVICE_REGISTRY_DEBUG" = Some "false")
    /\ is_Some (child_env c !! "PYTHONPATH").
Proof.
  destruct (launch (RT := Sample.node) Texts.with_pythonpath) as [r evs] eqn:Hl.
  pose proof Hl as Hl'. vm_compute in Hl'. injection Hl' as <- <-.
  eexists _, _. split; [reflexivity|].
  exact (child_settings_are_always_set (RT := Sample.node) Texts.with_pythonpath _ _ Hl).
Defined.
